(** * AI Ops Desk: the agent pipeline and its QA guardrail

    A shallow embedding of [schemas.py], [agents.py] and the request handler
    of [orchestrator.py], with the properties of the pipeline stated and
    proved (or refuted) against it.

    Conventions of the embedding:
    - a Python [float] is a primitive binary64 [float]; [x < y] is
      [PrimFloat.ltb x y] and [x > y] is [PrimFloat.ltb y x] (both are false
      as soon as one side is NaN, as in Python);
    - a [datetime] is an integer count of clock ticks;
    - a [Dict[str, Any]] used as a log is a [gmap string Value];
    - a dataclass is a record with the declared field types; an [Optional]
      field is an [option];
    - an agent mutates the payload it is given and returns that same object:
      the embedding threads the payload through the statements, so a
      mutation made before an exception is still there after it;
    - [datetime.utcnow()], [uuid.uuid4()], the database session and the
      standard output live in a [World] that every computation threads. *)

From Stdlib Require Import ZArith String PrimFloat SpecFloat FloatOps FloatAxioms.
From stdpp Require Import base option list gmap strings sorting.

Set Warnings "-inexact-float".
Open Scope string_scope.
Open Scope list_scope.

(** ** schemas.py *)

Inductive Intent := SCHEDULING | SUPPORT | BILLING | LEAD | OTHER | SPAM.

Inductive Priority := CRITICAL | HIGH | NORMAL | LOW.

Inductive QADecision := AUTO_SEND | DRAFT_ONLY | ESCALATE.

#[global] Instance Intent_eq_dec : EqDecision Intent.
Proof. solve_decision. Defined.

#[global] Instance QADecision_eq_dec : EqDecision QADecision.
Proof. solve_decision. Defined.

(** [Intent.X.value] *)
Definition Intent_value (i : Intent) : string :=
  match i with
  | SCHEDULING => "scheduling"
  | SUPPORT => "support"
  | BILLING => "billing"
  | LEAD => "lead"
  | OTHER => "other"
  | SPAM => "spam"
  end.

(** The member's name, as an f-string prints it. *)
Definition Intent_str (i : Intent) : string :=
  match i with
  | SCHEDULING => "Intent.SCHEDULING"
  | SUPPORT => "Intent.SUPPORT"
  | BILLING => "Intent.BILLING"
  | LEAD => "Intent.LEAD"
  | OTHER => "Intent.OTHER"
  | SPAM => "Intent.SPAM"
  end.

(** [QADecision.X.value] *)
Definition QADecision_value (d : QADecision) : string :=
  match d with
  | AUTO_SEND => "auto_send"
  | DRAFT_ONLY => "draft_only"
  | ESCALATE => "escalate"
  end.

Definition datetime := Z.
Bind Scope Z_scope with datetime.

(** The values a log dictionary or an action's arguments hold. *)
Inductive Value :=
| VStr (s : string)
| VBool (b : bool)
| VInt (n : Z)
| VFloat (x : float).

Record Contact := {
  email : string;
  name : option string;
  org_id : option string
}.

(** The fields as [schemas.py] declares them; [body_html] is the only one
    with a default (it is declared before three fields that have none). *)
Record Message := {
  subject : string;
  body_text : string;
  body_html : option string;
  received_at : datetime;
  message_id : string;
  thread_id : string
}.

Record ThreadHistory := {
  messages : list Message
}.

Record Classification := {
  intent : Intent;
  sub_intent : option string;
  priority : Priority;
  confidence : float
}.

Record Action := {
  action_type : string;
  tool_name : option string;
  tool_args : gmap string Value;
  result_id : option string;
  action_status : string
}.

Record TenantConfig := {
  config_tenant_id : string;
  timezone : string;
  working_hours_start : Z;
  working_hours_end : Z;
  working_days : list Z;
  tone : string;
  auto_send_enabled : bool;
  escalation_threshold : float
}.

Record WorkflowPayload := {
  workflow_id : string;
  tenant_id : string;
  correlation_id : string;
  source : gmap string string;
  contact : Contact;
  message : Message;
  thread_history : ThreadHistory;
  tenant_config : TenantConfig;
  classification : option Classification;
  qa_decision : option QADecision;
  qa_risk_score : option float;
  action_plan : list Action;
  created_at : datetime;
  updated_at : datetime
}.

(** Attribute assignments on a payload: [payload.f = v]. *)
Definition set_classification (v : option Classification) (p : WorkflowPayload) : WorkflowPayload :=
  {| workflow_id := workflow_id p; tenant_id := tenant_id p;
     correlation_id := correlation_id p; source := source p;
     contact := contact p; message := message p;
     thread_history := thread_history p; tenant_config := tenant_config p;
     classification := v;
     qa_decision := qa_decision p; qa_risk_score := qa_risk_score p;
     action_plan := action_plan p;
     created_at := created_at p; updated_at := updated_at p |}.

Definition set_qa_decision (v : option QADecision) (p : WorkflowPayload) : WorkflowPayload :=
  {| workflow_id := workflow_id p; tenant_id := tenant_id p;
     correlation_id := correlation_id p; source := source p;
     contact := contact p; message := message p;
     thread_history := thread_history p; tenant_config := tenant_config p;
     classification := classification p;
     qa_decision := v;
     qa_risk_score := qa_risk_score p;
     action_plan := action_plan p;
     created_at := created_at p; updated_at := updated_at p |}.

Definition set_qa_risk_score (v : option float) (p : WorkflowPayload) : WorkflowPayload :=
  {| workflow_id := workflow_id p; tenant_id := tenant_id p;
     correlation_id := correlation_id p; source := source p;
     contact := contact p; message := message p;
     thread_history := thread_history p; tenant_config := tenant_config p;
     classification := classification p;
     qa_decision := qa_decision p;
     qa_risk_score := v;
     action_plan := action_plan p;
     created_at := created_at p; updated_at := updated_at p |}.

Definition set_action_plan (v : list Action) (p : WorkflowPayload) : WorkflowPayload :=
  {| workflow_id := workflow_id p; tenant_id := tenant_id p;
     correlation_id := correlation_id p; source := source p;
     contact := contact p; message := message p;
     thread_history := thread_history p; tenant_config := tenant_config p;
     classification := classification p;
     qa_decision := qa_decision p; qa_risk_score := qa_risk_score p;
     action_plan := v;
     created_at := created_at p; updated_at := updated_at p |}.

Definition set_updated_at (v : datetime) (p : WorkflowPayload) : WorkflowPayload :=
  {| workflow_id := workflow_id p; tenant_id := tenant_id p;
     correlation_id := correlation_id p; source := source p;
     contact := contact p; message := message p;
     thread_history := thread_history p; tenant_config := tenant_config p;
     classification := classification p;
     qa_decision := qa_decision p; qa_risk_score := qa_risk_score p;
     action_plan := action_plan p;
     created_at := created_at p; updated_at := v |}.

(** ** Exceptions, and the world a computation runs in *)

Inductive Exception :=
| AttributeError (msg : string)
| TypeError (msg : string)
| OperationalError (msg : string)
| HTTPException (status_code : Z) (detail : string).

(** [str(e)] *)
Definition str (e : Exception) : string :=
  match e with
  | AttributeError msg => msg
  | TypeError msg => msg
  | OperationalError msg => msg
  | HTTPException code detail => detail
  end.

Inductive Outcome (A : Type) :=
| Returns (a : A)
| Raises (e : Exception).
Arguments Returns {A} a.
Arguments Raises {A} e.

Abbreviation Log := (gmap string Value).

(** The row of the [workflows] table. *)
Record WorkflowRecord := {
  rec_workflow_id : string;
  rec_tenant_id : string;
  rec_payload : WorkflowPayload;
  rec_created_at : datetime;
  rec_updated_at : datetime;
  rec_status : string
}.

(** What [log_automation_event] prints. *)
Inductive Event :=
| WorkflowEvent (workflow_id correlation_id tenant_id : string)
    (agent_logs : list Log) (decision classification : option string)
| FailureEvent (workflow_id status error : string).

(** The clock, the UUID generator and the database are the environment's:
    [clock k] is what the [k]-th call of [datetime.utcnow()] reads,
    [uuid_of k] what the [k]-th [uuid.uuid4()] prints, and
    [commit_raises k] says whether the [k]-th [db.commit()] fails; [store] is
    the [workflows] table by primary key and [stdout] what was printed. *)
Record World := {
  clock : nat → datetime;
  utc_calls : nat;
  uuid_of : nat → string;
  uuid_calls : nat;
  commit_raises : nat → bool;
  commits : nat;
  store : gmap string WorkflowRecord;
  stdout : list Event
}.

Definition Py (A : Type) : Type := World → Outcome A * World.

#[global] Instance Py_ret : MRet Py := λ A a w, (Returns a, w).

#[global] Instance Py_bind : MBind Py := λ A B f m w,
  match m w with
  | (Returns a, w') => f a w'
  | (Raises e, w') => (Raises e, w')
  end.

Definition raise {A} (e : Exception) : Py A := λ w, (Raises e, w).

(** [try: m  except Exception as e: ...], with the handler left to the
    caller: the result says whether [m] raised. *)
Definition catch {A} (m : Py A) : Py (Exception + A) := λ w,
  match m w with
  | (Returns a, w') => (Returns (inr a), w')
  | (Raises e, w') => (Returns (inl e), w')
  end.

(** The worlds after one more clock reading, one more UUID, one more
    commit (leaving the table as [st]) and one more printed event. *)
Definition tick (w : World) : World :=
  {| clock := clock w; utc_calls := S (utc_calls w);
     uuid_of := uuid_of w; uuid_calls := uuid_calls w;
     commit_raises := commit_raises w; commits := commits w;
     store := store w; stdout := stdout w |}.

Definition drawn (w : World) : World :=
  {| clock := clock w; utc_calls := utc_calls w;
     uuid_of := uuid_of w; uuid_calls := S (uuid_calls w);
     commit_raises := commit_raises w; commits := commits w;
     store := store w; stdout := stdout w |}.

Definition committed (st : gmap string WorkflowRecord) (w : World) : World :=
  {| clock := clock w; utc_calls := utc_calls w;
     uuid_of := uuid_of w; uuid_calls := uuid_calls w;
     commit_raises := commit_raises w; commits := S (commits w);
     store := st; stdout := stdout w |}.

Definition printed (ev : Event) (w : World) : World :=
  {| clock := clock w; utc_calls := utc_calls w;
     uuid_of := uuid_of w; uuid_calls := uuid_calls w;
     commit_raises := commit_raises w; commits := commits w;
     store := store w; stdout := stdout w ++ [ev] |}.

(** [datetime.utcnow()] *)
Definition utcnow : Py datetime := λ w,
  (Returns (clock w (utc_calls w)), tick w).

(** [str(uuid.uuid4())] *)
Definition uuid4 : Py string := λ w,
  (Returns (uuid_of w (uuid_calls w)), drawn w).

(** [db.commit()] with [record] the one object of the session: its row is
    written as the object stands, unless the commit raises. *)
Definition db_commit (record : WorkflowRecord) : Py unit := λ w,
  if commit_raises w (commits w) then
    (Raises (OperationalError "could not commit"), committed (store w) w)
  else
    (Returns (), committed (<[rec_workflow_id record := record]> (store w)) w).

(** [log_automation_event(event)] *)
Definition log_automation_event (event : Event) : Py unit := λ w,
  (Returns (), printed event w).

(** ** agents.py *)

Definition AgentOutput : Type := WorkflowPayload * Log.

(** The state of a [try] block when control leaves it: the payload and the
    log as mutated so far, and the exception if one was raised. *)
Definition TryResult : Type := WorkflowPayload * Log * option Exception.

(** [except Exception as e: log["status"] = "failed"; log["error"] = str(e)] *)
Definition except_failed (r : TryResult) : AgentOutput :=
  match r with
  | (payload, log, None) => (payload, log)
  | (payload, log, Some e) =>
      (payload, <["error" := VStr (str e)]> (<["status" := VStr "failed"]> log))
  end.

(** [payload.updated_at = datetime.utcnow(); return payload, log] *)
Definition bump_and_return (out : AgentOutput) : Py AgentOutput :=
  now ← utcnow;
  mret (set_updated_at now out.1, out.2).

Definition ingestion_try (payload : WorkflowPayload) (log : Log) : TryResult :=
  let log := <["status" := VStr "completed"]> log in
  let log := <["messages_fetched" :=
                 VInt (Z.of_nat (length (messages (thread_history payload))))]> log in
  (payload, log, None).

Definition ingestion_agent (payload : WorkflowPayload) : Py AgentOutput :=
  let log : Log := {[ "agent" := VStr "ingestion"; "status" := VStr "pending" ]} in
  bump_and_return (except_failed (ingestion_try payload log)).

Definition triage_try (payload : WorkflowPayload) (log : Log) : TryResult :=
  let classification :=
    {| intent := SCHEDULING; sub_intent := None;
       priority := NORMAL; confidence := 0.85 |} in
  let payload := set_classification (Some classification) payload in
  let log := <["intent" := VStr (Intent_value (intent classification))]> log in
  let log := <["confidence" := VFloat (confidence classification)]> log in
  let log := <["status" := VStr "completed"]> log in
  (payload, log, None).

Definition triage_agent (payload : WorkflowPayload) : Py AgentOutput :=
  let log : Log := {[ "agent" := VStr "triage"; "status" := VStr "pending" ]} in
  bump_and_return (except_failed (triage_try payload log)).

(** [Action(action_type="reply", tool_name="gmail", tool_args={"body": reply_text})] *)
Definition reply_action (reply_text : string) : Action :=
  {| action_type := "reply"; tool_name := Some "gmail";
     tool_args := {[ "body" := VStr reply_text ]};
     result_id := None; action_status := "pending" |}.

Definition admin_scheduling_try (payload : WorkflowPayload) (log : Log) : TryResult :=
  let reply_text := "Thank you for reaching out. Here are some available times..." in
  let action := reply_action reply_text in
  let payload := set_action_plan (action_plan payload ++ [action]) payload in
  let log := <["slots_proposed" := VInt 3]> log in
  let log := <["status" := VStr "completed"]> log in
  (payload, log, None).

Definition admin_scheduling_agent (payload : WorkflowPayload) : Py AgentOutput :=
  let log : Log := {[ "agent" := VStr "admin_scheduling"; "status" := VStr "pending" ]} in
  match classification payload with
  | None => raise (AttributeError "'NoneType' object has no attribute 'intent'")
  | Some c =>
      if bool_decide (intent c ≠ SCHEDULING) then
        let log := <["skipped" := VBool true]> log in
        mret (payload, log)
      else
        bump_and_return (except_failed (admin_scheduling_try payload log))
  end.

Definition support_faq_try (payload : WorkflowPayload) (log : Log) : TryResult :=
  let reply_text := "Based on your question, here is the information..." in
  let action := reply_action reply_text in
  let payload := set_action_plan (action_plan payload ++ [action]) payload in
  let log := <["kb_matches" := VInt 2]> log in
  let log := <["status" := VStr "completed"]> log in
  (payload, log, None).

Definition support_faq_agent (payload : WorkflowPayload) : Py AgentOutput :=
  let log : Log := {[ "agent" := VStr "support_faq"; "status" := VStr "pending" ]} in
  match classification payload with
  | None => raise (AttributeError "'NoneType' object has no attribute 'intent'")
  | Some c =>
      if bool_decide (intent c ≠ SUPPORT) then
        let log := <["skipped" := VBool true]> log in
        mret (payload, log)
      else
        bump_and_return (except_failed (support_faq_try payload log))
  end.

(** The body of the guardrail's [try], for the value [risk_score] its first
    statement binds. *)
Definition qa_guardrail_try (risk_score : float)
    (payload : WorkflowPayload) (log : Log) : TryResult :=
  let payload := set_qa_risk_score (Some risk_score) payload in
  match classification payload with
  | None =>
      (payload, log,
       Some (AttributeError "'NoneType' object has no attribute 'confidence'"))
  | Some c =>
      let payload :=
        if (confidence c <? escalation_threshold (tenant_config payload))%float
           || (0.7 <? risk_score)%float
        then set_qa_decision (Some ESCALATE) payload
        else if auto_send_enabled (tenant_config payload)
                && (risk_score <? 0.3)%float
                && (0.85 <? confidence c)%float
        then set_qa_decision (Some AUTO_SEND) payload
        else set_qa_decision (Some DRAFT_ONLY) payload in
      let log := <["risk_score" := VFloat risk_score]> log in
      match qa_decision payload with
      | None =>
          (payload, log,
           Some (AttributeError "'NoneType' object has no attribute 'value'"))
      | Some decision =>
          let log := <["decision" := VStr (QADecision_value decision)]> log in
          let log := <["status" := VStr "completed"]> log in
          (payload, log, None)
      end
  end.

(** The placeholder risk score. *)
Definition placeholder_risk_score : float := 0.2.

Definition qa_guardrail_agent (payload : WorkflowPayload) : Py AgentOutput :=
  let log : Log := {[ "agent" := VStr "qa_guardrail"; "status" := VStr "pending" ]} in
  let risk_score := placeholder_risk_score in
  bump_and_return (except_failed (qa_guardrail_try risk_score payload log)).

(** ** orchestrator.py *)

(** A [Dict[str, Any]] unpacked into the call of a dataclass, read against
    that dataclass: for each field the value under its key when the key is
    there, and the keys that name no field, in the dictionary's order. *)
Record ContactKwargs := {
  kw_email : option string;
  kw_name : option (option string);
  kw_org_id : option (option string);
  kw_contact_other : list string
}.

Record MessageKwargs := {
  kw_subject : option string;
  kw_body_text : option string;
  kw_body_html : option (option string);
  kw_received_at : option datetime;
  kw_message_id : option string;
  kw_thread_id : option string;
  kw_message_other : list string
}.

Record TenantConfigKwargs := {
  kw_tenant_id : option string;
  kw_timezone : option string;
  kw_working_hours_start : option Z;
  kw_working_hours_end : option Z;
  kw_working_days : option (list Z);
  kw_tone : option string;
  kw_auto_send_enabled : option bool;
  kw_escalation_threshold : option float;
  kw_config_other : list string
}.

(** The empty dictionary [{}]. *)
Definition no_kwargs : TenantConfigKwargs :=
  {| kw_tenant_id := None; kw_timezone := None;
     kw_working_hours_start := None; kw_working_hours_end := None;
     kw_working_days := None; kw_tone := None;
     kw_auto_send_enabled := None; kw_escalation_threshold := None;
     kw_config_other := [] |}.

Record IncomingMessageRequest := {
  req_tenant_id : string;
  req_source : gmap string string;
  req_contact : ContactKwargs;
  req_message : MessageKwargs;
  req_tenant_config : option TenantConfigKwargs
}.

Record WorkflowResponse := {
  resp_workflow_id : string;
  resp_decision : option string;
  resp_status : string;
  resp_message : option string
}.

(** [Contact] called on the unpacked dictionary: a [TypeError] on a key that is no field and on a
    missing [email]; [name] and [org_id] default to [None]. *)
Definition Contact_init (kw : ContactKwargs) : Outcome Contact :=
  match kw_contact_other kw with
  | k :: _ =>
      Raises (TypeError ("Contact.__init__() got an unexpected keyword argument '" +:+ k +:+ "'"))
  | [] =>
      match kw_email kw with
      | Some e =>
          Returns {| email := e; name := default None (kw_name kw);
                     org_id := default None (kw_org_id kw) |}
      | None =>
          Raises (TypeError "Contact.__init__() missing 1 required positional argument: 'email'")
      end
  end.

(** [Message] called on the unpacked dictionary: every field but [body_html] is required. *)
Definition Message_init (kw : MessageKwargs) : Outcome Message :=
  match kw_message_other kw with
  | k :: _ =>
      Raises (TypeError ("Message.__init__() got an unexpected keyword argument '" +:+ k +:+ "'"))
  | [] =>
      match kw_subject kw, kw_body_text kw, kw_received_at kw,
            kw_message_id kw, kw_thread_id kw with
      | Some s, Some b, Some r, Some m, Some t =>
          Returns {| subject := s; body_text := b;
                     body_html := default None (kw_body_html kw);
                     received_at := r; message_id := m; thread_id := t |}
      | _, _, _, _, _ =>
          Raises (TypeError "Message.__init__() missing required positional arguments")
      end
  end.

(** [TenantConfig] called with [tenant_id] and the unpacked dictionary: a
    [TypeError] when the dictionary names [tenant_id] a second time or has a key that is no field;
    every other field has its default. *)
Definition TenantConfig_init (tenant_id : string) (kw : TenantConfigKwargs)
    : Outcome TenantConfig :=
  match kw_tenant_id kw with
  | Some _ =>
      Raises (TypeError "TenantConfig() got multiple values for keyword argument 'tenant_id'")
  | None =>
      match kw_config_other kw with
      | k :: _ =>
          Raises (TypeError ("TenantConfig.__init__() got an unexpected keyword argument '" +:+ k +:+ "'"))
      | [] =>
          Returns {| config_tenant_id := tenant_id;
                     timezone := default "Europe/London" (kw_timezone kw);
                     working_hours_start := default 9%Z (kw_working_hours_start kw);
                     working_hours_end := default 17%Z (kw_working_hours_end kw);
                     working_days := default [0; 1; 2; 3; 4]%Z (kw_working_days kw);
                     tone := default "professional" (kw_tone kw);
                     auto_send_enabled := default false (kw_auto_send_enabled kw);
                     escalation_threshold := default 0.7%float (kw_escalation_threshold kw) |}
      end
  end.

(** A constructor call inside a computation. *)
Definition call {A} (o : Outcome A) : Py A := λ w, (o, w).

(** Lines 131-156: the tenant configuration, the initial payload and the
    record of the run, not yet added to the session. *)
Definition build_initial (request : IncomingMessageRequest) (workflow_id : string)
    : Py (WorkflowPayload * WorkflowRecord) :=
  tenant_config ← call (TenantConfig_init (req_tenant_id request)
                          (default no_kwargs (req_tenant_config request)));
  contact ← call (Contact_init (req_contact request));
  message ← call (Message_init (req_message request));
  created ← utcnow;
  updated ← utcnow;
  let payload :=
    {| workflow_id := workflow_id; tenant_id := req_tenant_id request;
       correlation_id := workflow_id; source := req_source request;
       contact := contact; message := message;
       thread_history := {| messages := [] |};
       tenant_config := tenant_config;
       classification := None; qa_decision := None; qa_risk_score := None;
       action_plan := [];
       created_at := created; updated_at := updated |} in
  record_created ← utcnow;
  record_updated ← utcnow;
  let record :=
    {| rec_workflow_id := workflow_id; rec_tenant_id := req_tenant_id request;
       rec_payload := payload;
       rec_created_at := record_created; rec_updated_at := record_updated;
       rec_status := "processing" |} in
  mret (payload, record).

(** Step 3 of the pipeline: the worker for the classified intent. *)
Definition route_worker (payload : WorkflowPayload) (agent_logs : list Log)
    : Py (WorkflowPayload * list Log) :=
  match classification payload with
  | Some c =>
      if bool_decide (intent c = SCHEDULING) then
        '(payload, log) ← admin_scheduling_agent payload;
        mret (payload, agent_logs ++ [log])
      else if bool_decide (intent c = SUPPORT) then
        '(payload, log) ← support_faq_agent payload;
        mret (payload, agent_logs ++ [log])
      else
        let log : Log :=
          {[ "agent" := VStr "worker"; "status" := VStr "skipped";
             "reason" := VStr ("No handler for intent: " +:+ Intent_str (intent c)) ]} in
        mret (payload, agent_logs ++ [log])
  | None => mret (payload, agent_logs)
  end.

(** Lines 160-190: the agent pipeline. *)
Definition run_pipeline (payload : WorkflowPayload) : Py (WorkflowPayload * list Log) :=
  let agent_logs : list Log := [] in
  '(payload, log) ← ingestion_agent payload;
  let agent_logs := agent_logs ++ [log] in
  '(payload, log) ← triage_agent payload;
  let agent_logs := agent_logs ++ [log] in
  '(payload, agent_logs) ← route_worker payload agent_logs;
  '(payload, log) ← qa_guardrail_agent payload;
  let agent_logs := agent_logs ++ [log] in
  mret (payload, agent_logs).

Definition set_rec_failed (now : datetime) (r : WorkflowRecord) : WorkflowRecord :=
  {| rec_workflow_id := rec_workflow_id r; rec_tenant_id := rec_tenant_id r;
     rec_payload := rec_payload r; rec_created_at := rec_created_at r;
     rec_updated_at := now; rec_status := "failed" |}.

Definition set_rec_completed (payload : WorkflowPayload) (now : datetime)
    (r : WorkflowRecord) : WorkflowRecord :=
  {| rec_workflow_id := rec_workflow_id r; rec_tenant_id := rec_tenant_id r;
     rec_payload := payload; rec_created_at := rec_created_at r;
     rec_updated_at := now; rec_status := "completed" |}.

(** The [except Exception as e] clause of the handler; [record] is the local
    variable of that name when the [try] had bound it before it raised. *)
Definition on_exception (workflow_id : string) (record : option WorkflowRecord)
    (e : Exception) : Py WorkflowResponse :=
  _ ← match record with
      | Some record =>
          now ← utcnow;
          db_commit (set_rec_failed now record)
      | None => mret ()
      end;
  _ ← log_automation_event (FailureEvent workflow_id "failed" (str e));
  raise (HTTPException 500 ("Workflow processing failed: " +:+ str e)).

(** Lines 192-213: the record is updated and committed, the event printed
    and the response built. *)
Definition finish (workflow_id : string) (request : IncomingMessageRequest)
    (payload : WorkflowPayload) (agent_logs : list Log) (record : WorkflowRecord)
    : Py WorkflowResponse :=
  _ ← db_commit record;
  _ ← log_automation_event
        (WorkflowEvent workflow_id (correlation_id payload) (req_tenant_id request)
           agent_logs
           (QADecision_value <$> qa_decision payload)
           (Intent_value ∘ intent <$> classification payload));
  mret {| resp_workflow_id := workflow_id;
          resp_decision := QADecision_value <$> qa_decision payload;
          resp_status := "completed";
          resp_message := Some "Workflow processed successfully" |}.

(** [handle_incoming_message]. The [try] block is cut where [record] is
    bound and where it is mutated, so that the [except] clause gets the
    record as the locals hold it when the exception is raised. The [finally]
    clause closes the session, which changes nothing of the world. *)
Definition handle_incoming_message (request : IncomingMessageRequest)
    : Py WorkflowResponse :=
  workflow_id ← uuid4;
  r ← catch (build_initial request workflow_id);
  match r with
  | inl e => on_exception workflow_id None e
  | inr (payload, record) =>
      r ← catch (_ ← db_commit record; run_pipeline payload);
      match r with
      | inl e => on_exception workflow_id (Some record) e
      | inr (payload, agent_logs) =>
          r ← catch (now ← utcnow;
                     mret (set_rec_completed payload now record));
          match r with
          | inl e => on_exception workflow_id (Some record) e
          | inr record =>
              r ← catch (finish workflow_id request payload agent_logs record);
              match r with
              | inl e => on_exception workflow_id (Some record) e
              | inr response => mret response
              end
          end
      end
  end.

(** ** The stages, and the decision rule of the specification *)

(** The five stage functions of [agents.py]. *)
Inductive Stage :=
| Ingestion | Triage | AdminScheduling | SupportFaq | QAGuardrail.

Definition run_stage (s : Stage) : WorkflowPayload → Py AgentOutput :=
  match s with
  | Ingestion => ingestion_agent
  | Triage => triage_agent
  | AdminScheduling => admin_scheduling_agent
  | SupportFaq => support_faq_agent
  | QAGuardrail => qa_guardrail_agent
  end.

(** A stage is a worker when it has an intent of its own. *)
Definition worker_intent (s : Stage) : option Intent :=
  match s with
  | AdminScheduling => Some SCHEDULING
  | SupportFaq => Some SUPPORT
  | _ => None
  end.

(** The decision rule as the specification words it (section 4.5): escalate
    when the confidence is below the threshold or the risk above 0.7;
    otherwise send when the tenant allows it, the risk is below 0.3 and the
    confidence above 0.85; otherwise draft. *)
Definition spec_decision (confidence risk_score : float)
    (auto_send_enabled : bool) (escalation_threshold : float) : QADecision :=
  let escalates :=
    (confidence <? escalation_threshold)%float || (0.7 <? risk_score)%float in
  let sends :=
    auto_send_enabled && (risk_score <? 0.3)%float && (0.85 <? confidence)%float in
  match escalates, sends with
  | true, _ => ESCALATE
  | false, true => AUTO_SEND
  | false, false => DRAFT_ONLY
  end.

(** The names of the agents of a sequence of log entries. *)
Definition agents_of (agent_logs : list Log) : list (option Value) :=
  (λ log : Log, log !! "agent") <$> agent_logs.

(** ** Sample inputs *)

(** A world whose clock reads 100, 101, ..., whose database is empty and
    never fails. *)
Definition sample_world : World :=
  {| clock := λ k, (Z.of_nat k + 100)%Z; utc_calls := 0;
     uuid_of := λ _, "7d0c"; uuid_calls := 0;
     commit_raises := λ _, false; commits := 0;
     store := ∅; stdout := [] |}.

Definition sample_config (auto_send : bool) : TenantConfig :=
  {| config_tenant_id := "acme"; timezone := "Europe/London";
     working_hours_start := 9; working_hours_end := 17;
     working_days := [0; 1; 2; 3; 4]%Z; tone := "professional";
     auto_send_enabled := auto_send; escalation_threshold := 0.7 |}.

Definition classified (i : Intent) (conf : float) : Classification :=
  {| intent := i; sub_intent := None; priority := NORMAL; confidence := conf |}.

(** A payload created at tick 0, with the given tenant setting and
    classification and no enrichment yet. *)
Definition sample_payload (auto_send : bool) (c : option Classification)
    : WorkflowPayload :=
  {| workflow_id := "7d0c"; tenant_id := "acme"; correlation_id := "7d0c";
     source := {[ "channel" := "gmail" ]};
     contact := {| email := "ann@example.org"; name := None; org_id := None |};
     message := {| subject := "Meeting"; body_text := "Can we meet?";
                   body_html := None; received_at := 0;
                   message_id := "m1"; thread_id := "t1" |};
     thread_history := {| messages := [] |};
     tenant_config := sample_config auto_send;
     classification := c;
     qa_decision := None; qa_risk_score := None;
     action_plan := [];
     created_at := 0; updated_at := 0 |}.

Definition unclassified_payload : WorkflowPayload := sample_payload false None.

Definition support_payload : WorkflowPayload :=
  sample_payload false (Some (classified SUPPORT 0.9)).

Definition sample_contact : ContactKwargs :=
  {| kw_email := Some "ann@example.org"; kw_name := None; kw_org_id := None;
     kw_contact_other := [] |}.

Definition sample_message : MessageKwargs :=
  {| kw_subject := Some "Meeting"; kw_body_text := Some "Can we meet?";
     kw_body_html := None; kw_received_at := Some 0%Z;
     kw_message_id := Some "m1"; kw_thread_id := Some "t1";
     kw_message_other := [] |}.

Definition sample_request : IncomingMessageRequest :=
  {| req_tenant_id := "acme"; req_source := {[ "channel" := "gmail" ]};
     req_contact := sample_contact; req_message := sample_message;
     req_tenant_config := None |}.


(** The sample request with a contact that has no [email]. *)
Definition malformed_request : IncomingMessageRequest :=
  {| req_tenant_id := "acme"; req_source := {[ "channel" := "gmail" ]};
     req_contact := {| kw_email := None; kw_name := Some (Some "Ann");
                       kw_org_id := None; kw_contact_other := [] |};
     req_message := sample_message;
     req_tenant_config := None |}.

(** ** orchestrator.py: the read endpoints *)

(** What [get_workflow] returns. The two [isoformat()] strings are kept as
    the datetimes they print. *)
Record WorkflowView := {
  view_workflow_id : string;
  view_tenant_id : string;
  view_status : string;
  view_payload : WorkflowPayload;
  view_created_at : datetime;
  view_updated_at : datetime
}.

(** [get_workflow]: the row with that primary key, or a 404. *)
Definition get_workflow (workflow_id : string) : Py WorkflowView := λ w,
  match store w !! workflow_id with
  | None =>
      (Raises (HTTPException 404 ("Workflow " +:+ workflow_id +:+ " not found")), w)
  | Some record =>
      (Returns {| view_workflow_id := rec_workflow_id record;
                  view_tenant_id := rec_tenant_id record;
                  view_status := rec_status record;
                  view_payload := rec_payload record;
                  view_created_at := rec_created_at record;
                  view_updated_at := rec_updated_at record |}, w)
  end.





(** [created_at.desc()]: [r1] may come before [r2]. *)
Definition newer_first (r1 r2 : WorkflowRecord) : Prop :=
  (rec_created_at r2 ≤ rec_created_at r1)%Z.

#[global] Instance newer_first_dec (r1 r2 : WorkflowRecord) :
  Decision (newer_first r1 r2) := Z_le_dec _ _.



(** ** connectors/calendar.py *)

(** In this connector a datetime is counted in microseconds from
    [datetime.min]; [datetime_max] is [datetime.max]. *)
Definition datetime_max : Z := 315537897599999999.

(** [timedelta(days=days, hours=hours)] for [0 <= hours < 24], in
    microseconds; [None] stands for the [OverflowError] raised when the days
    exceed 999999999 in magnitude. *)
Definition timedelta (days hours : Z) : option Z :=
  if bool_decide (-999999999 ≤ days ≤ 999999999)%Z
  then Some ((days * 24 + hours) * 3600000000)%Z
  else None.

(** [d + delta]; [None] stands for the [OverflowError] raised when the sum
    is not a datetime. *)
Definition datetime_add (d : datetime) (delta : Z) : option datetime :=
  if bool_decide (0 ≤ d + delta ≤ datetime_max)%Z
  then Some (d + delta)%Z
  else None.

(** A slot dictionary; [slot_start] is the datetime that [isoformat()]
    prints. *)
Record Slot := {
  slot_start : datetime;
  slot_duration_minutes : Z;
  slot_timezone : string
}.

(** The loop [for i in range(num_slots)], from index [i] with [n] rounds to
    go. *)
Fixpoint slots_loop (now : datetime) (duration_minutes : Z) (tz : string)
    (i : Z) (n : nat) (slots : list Slot) : option (list Slot) :=
  match n with
  | O => Some slots
  | S n =>
      delta ← timedelta (i + 1) 10;
      start_time ← datetime_add now delta;
      slots_loop now duration_minutes tz (i + 1) n
        (slots ++ [{| slot_start := start_time;
                      slot_duration_minutes := duration_minutes;
                      slot_timezone := tz |}])
  end.

(** The slot of index [i] for a clock that reads [now]: it starts [i + 1]
    days and 10 hours later. *)
Definition slot_at (now : datetime) (duration_minutes : Z) (tz : string)
    (i : Z) : Slot :=
  {| slot_start := (now + ((i + 1) * 24 + 10) * 3600000000)%Z;
     slot_duration_minutes := duration_minutes;
     slot_timezone := tz |}.

(** [find_calendar_slots]; the clock is read once, and [None] stands for an
    [OverflowError] leaving the function. What the function prints is left
    out. *)
Definition find_calendar_slots (tenant_config : TenantConfig)
    (num_slots duration_minutes days_ahead : Z)
    : World → option (list Slot) * World := λ w,
  let now := clock w (utc_calls w) in
  (slots_loop now duration_minutes (timezone tenant_config) 0
     (Z.to_nat num_slots) [],
   tick w).

(** ** More sample inputs *)



(** A row of the table for a workflow [id] of [tenant], created at [at]. *)
Definition stored_record (id tenant status : string) (at_ : datetime)
    : WorkflowRecord :=
  {| rec_workflow_id := id; rec_tenant_id := tenant;
     rec_payload :=
       {| workflow_id := id; tenant_id := tenant; correlation_id := id;
          source := {[ "channel" := "gmail" ]};
          contact := {| email := "bob@example.org"; name := None; org_id := None |};
          message := {| subject := "Invoice"; body_text := "Where is it?";
                        body_html := None; received_at := at_;
                        message_id := "m0"; thread_id := "t0" |};
          thread_history := {| messages := [] |};
          tenant_config := sample_config false;
          classification := None; qa_decision := None; qa_risk_score := None;
          action_plan := [];
          created_at := at_; updated_at := at_ |};
     rec_created_at := at_; rec_updated_at := at_;
     rec_status := status |}.

(** The sample world with three rows already in the table. *)
Definition busy_world : World :=
  {| clock := λ k, (Z.of_nat k + 100)%Z; utc_calls := 0;
     uuid_of := λ _, "7d0c"; uuid_calls := 0;
     commit_raises := λ _, false; commits := 0;
     store := {[ "a1f3" := stored_record "a1f3" "globex" "completed" 50;
                 "b2e4" := stored_record "b2e4" "acme" "failed" 60;
                 "c3d5" := stored_record "c3d5" "acme" "completed" 70 ]};
     stdout := [] |}.

(** ** Running a stage *)

Lemma bump_and_return_run (out : AgentOutput) (w : World) :
  bump_and_return out w =
    (Returns (set_updated_at (clock w (utc_calls w)) out.1, out.2), tick w).
Proof. reflexivity. Qed.

(** On a classified payload the guardrail's [try] runs to its end, and the
    decision it stores is the one the specification's rule gives. *)
Lemma qa_guardrail_try_classified (risk_score : float)
    (payload : WorkflowPayload) (log : Log) (c : Classification) :
  classification payload = Some c →
  let d := spec_decision (confidence c) risk_score
             (auto_send_enabled (tenant_config payload))
             (escalation_threshold (tenant_config payload)) in
  qa_guardrail_try risk_score payload log =
    (set_qa_decision (Some d) (set_qa_risk_score (Some risk_score) payload),
     <["status" := VStr "completed"]>
       (<["decision" := VStr (QADecision_value d)]>
          (<["risk_score" := VFloat risk_score]> log)),
     None).
Proof.
  intros Hc d. subst d. unfold qa_guardrail_try, spec_decision. cbn [classification set_qa_risk_score].
  rewrite Hc. cbn [tenant_config set_qa_risk_score].
  destruct (confidence c <? escalation_threshold (tenant_config payload))%float,
    (0.7 <? risk_score)%float,
    (auto_send_enabled (tenant_config payload)),
    (risk_score <? 0.3)%float,
    (0.85 <? confidence c)%float; reflexivity.
Qed.

(** On an unclassified payload the [try] stops at the first read of the
    classification, after the risk score has been stored. *)
Lemma qa_guardrail_try_unclassified (risk_score : float)
    (payload : WorkflowPayload) (log : Log) :
  classification payload = None →
  qa_guardrail_try risk_score payload log =
    (set_qa_risk_score (Some risk_score) payload, log,
     Some (AttributeError "'NoneType' object has no attribute 'confidence'")).
Proof.
  intros Hc. unfold qa_guardrail_try. cbn [classification set_qa_risk_score].
  rewrite Hc. reflexivity.
Qed.

(** ** The guardrail's decision *)

(** C1. On every payload with a classification the guardrail returns, and
    the decision it stores is the specification's rule applied to the
    classification's confidence, the risk score, the tenant's auto-send flag
    and the tenant's escalation threshold: first match of escalate, send,
    draft, with strict comparisons. This holds for the stage as it runs
    (with its risk score) and for its body at any risk score. *)
Theorem guardrail_decision_rule (payload : WorkflowPayload) (c : Classification) :
  classification payload = Some c →
  let auto := auto_send_enabled (tenant_config payload) in
  let threshold := escalation_threshold (tenant_config payload) in
  (∀ w : World, ∃ (payload' : WorkflowPayload) (log : Log),
     qa_guardrail_agent payload w = (Returns (payload', log), tick w) ∧
     qa_decision payload' =
       Some (spec_decision (confidence c) placeholder_risk_score auto threshold) ∧
     qa_risk_score payload' = Some placeholder_risk_score ∧
     log !! "status" = Some (VStr "completed") ∧
     log !! "decision" =
       Some (VStr (QADecision_value
                     (spec_decision (confidence c) placeholder_risk_score auto threshold)))) ∧
  (∀ (risk_score : float) (log : Log),
     ∃ (payload' : WorkflowPayload) (log' : Log),
       qa_guardrail_try risk_score payload log = (payload', log', None) ∧
       qa_decision payload' =
         Some (spec_decision (confidence c) risk_score auto threshold)).
Proof.
  intros Hc auto threshold. split.
  - intros w. unfold qa_guardrail_agent.
    rewrite (qa_guardrail_try_classified _ _ _ _ Hc), bump_and_return_run.
    do 2 eexists. split; [reflexivity |]. cbn [fst snd except_failed].
    split; [reflexivity |]. split; [reflexivity |]. split.
    + apply lookup_insert_eq.
    + rewrite lookup_insert_ne by done. apply lookup_insert_eq.
  - intros risk_score log.
    rewrite (qa_guardrail_try_classified _ _ _ _ Hc).
    do 2 eexists. split; reflexivity.
Qed.

Lemma guardrail_decision_rule_witness :
  classification (sample_payload true (Some (classified SCHEDULING 0.9))) =
    Some (classified SCHEDULING 0.9) ∧
  ∃ (payload' : WorkflowPayload) (log : Log),
    qa_guardrail_agent (sample_payload true (Some (classified SCHEDULING 0.9)))
      sample_world = (Returns (payload', log), tick sample_world) ∧
    qa_decision payload' = Some AUTO_SEND.
Proof.
  split; [reflexivity |].
  destruct (guardrail_decision_rule
              (sample_payload true (Some (classified SCHEDULING 0.9)))
              (classified SCHEDULING 0.9) eq_refl) as [Hrun _].
  destruct (Hrun sample_world) as (payload' & log & Hq & Hd & _).
  exists payload', log. split; [exact Hq | exact Hd].
Defined.

(** With auto-send disabled the rule never answers [AUTO_SEND]. *)
Lemma spec_decision_gated (confidence risk_score threshold : float) :
  spec_decision confidence risk_score false threshold = ESCALATE ∨
  spec_decision confidence risk_score false threshold = DRAFT_ONLY.
Proof.
  unfold spec_decision.
  destruct ((confidence <? threshold)%float || (0.7 <? risk_score)%float);
    [left | right]; reflexivity.
Qed.



(** ** The guardrail on an unclassified payload *)

(** C2, as the claim states it, fails: on a payload without classification
    whose decision is unset, the guardrail returns with a failed log and the
    decision still unset, not [ESCALATE]. *)
Lemma guardrail_unclassified_no_decision :
  classification unclassified_payload = None ∧
  ∃ (payload' : WorkflowPayload) (log : Log),
    qa_guardrail_agent unclassified_payload sample_world =
      (Returns (payload', log), tick sample_world) ∧
    qa_decision payload' = None ∧
    log !! "status" = Some (VStr "failed") ∧
    log !! "decision" = None.
Proof.
  split; [reflexivity |].
  do 2 eexists. split; [reflexivity |].
  split; [reflexivity |]. split; vm_compute; reflexivity.
Qed.

(** C2, amended. On every payload without classification the guardrail
    returns normally; its log has status [failed] and the error message of
    the failed attribute access, and carries no decision; the payload's
    [qa_decision] is left as it was (unset stays unset). *)
Theorem guardrail_unclassified_fails (payload : WorkflowPayload) (w : World) :
  classification payload = None →
  ∃ (payload' : WorkflowPayload) (log : Log),
    qa_guardrail_agent payload w = (Returns (payload', log), tick w) ∧
    qa_decision payload' = qa_decision payload ∧
    classification payload' = None ∧
    log !! "status" = Some (VStr "failed") ∧
    log !! "error" =
      Some (VStr "'NoneType' object has no attribute 'confidence'") ∧
    log !! "decision" = None.
Proof.
  intros Hc. unfold qa_guardrail_agent.
  rewrite (qa_guardrail_try_unclassified _ _ _ Hc), bump_and_return_run.
  do 2 eexists. split; [reflexivity |]. cbn [fst snd except_failed].
  split; [reflexivity |]. split; [exact Hc |].
  split; [| split]; vm_compute; reflexivity.
Qed.

Lemma guardrail_unclassified_fails_witness :
  classification unclassified_payload = None ∧
  ∃ (payload' : WorkflowPayload) (log : Log),
    qa_guardrail_agent unclassified_payload sample_world =
      (Returns (payload', log), tick sample_world) ∧
    qa_decision payload' = qa_decision unclassified_payload.
Proof.
  split; [reflexivity |].
  destruct (guardrail_unclassified_fails unclassified_payload sample_world eq_refl)
    as (payload' & log & Hq & Hd & _).
  exists payload', log. split; [exact Hq | exact Hd].
Defined.

(** ** What a stage can do *)

(** Every run of a stage is of one of four kinds: a worker raises on an
    unclassified payload; a worker skips a payload of another intent, without
    touching the payload or reading the clock; the guardrail fails on an
    unclassified payload, with the risk score stored; or the stage completes.
    In the last two the stage reads the clock once and stores the reading in
    [updated_at]. *)
Lemma run_stage_outcome (s : Stage) (payload : WorkflowPayload) (w : World) :
  match run_stage s payload w with
  | (Raises e, w') =>
      is_Some (worker_intent s) ∧ classification payload = None ∧ w' = w ∧
      e = AttributeError "'NoneType' object has no attribute 'intent'"
  | (Returns (payload', log), w') =>
      (∃ c : Classification,
         classification payload = Some c ∧
         is_Some (worker_intent s) ∧ worker_intent s ≠ Some (intent c) ∧
         log !! "skipped" = Some (VBool true) ∧
         log !! "status" = Some (VStr "pending") ∧
         payload' = payload ∧ w' = w)
      ∨ (log !! "skipped" = None ∧
         log !! "status" = Some (VStr "failed") ∧
         is_Some (log !! "error") ∧
         s = QAGuardrail ∧ classification payload = None ∧
         payload' = set_updated_at (clock w (utc_calls w))
                      (set_qa_risk_score (Some placeholder_risk_score) payload) ∧
         w' = tick w)
      ∨ (log !! "skipped" = None ∧
         log !! "status" = Some (VStr "completed") ∧
         updated_at payload' = clock w (utc_calls w) ∧
         w' = tick w)
  end.
Proof.
  destruct s; cbn [run_stage].
  - right; right. repeat split; vm_compute; reflexivity.
  - right; right. repeat split; vm_compute; reflexivity.
  - unfold admin_scheduling_agent.
    destruct (classification payload) as [c |] eqn:Hc.
    + case_bool_decide as Hi.
      * left. exists c. cbn [worker_intent].
        split; [reflexivity |]. split; [by eexists |].
        split; [congruence |]. repeat split; vm_compute; reflexivity.
      * rewrite bump_and_return_run. right; right.
        repeat split; vm_compute; reflexivity.
    + cbn [worker_intent]. repeat split. by eexists.
  - unfold support_faq_agent.
    destruct (classification payload) as [c |] eqn:Hc.
    + case_bool_decide as Hi.
      * left. exists c. cbn [worker_intent].
        split; [reflexivity |]. split; [by eexists |].
        split; [congruence |]. repeat split; vm_compute; reflexivity.
      * rewrite bump_and_return_run. right; right.
        repeat split; vm_compute; reflexivity.
    + cbn [worker_intent]. repeat split. by eexists.
  - unfold qa_guardrail_agent.
    destruct (classification payload) as [c |] eqn:Hc.
    + rewrite (qa_guardrail_try_classified _ _ _ _ Hc), bump_and_return_run.
      right; right. cbn [fst snd except_failed].
      split; [| split; [| split; reflexivity]].
      * rewrite !lookup_insert_ne by done. vm_compute; reflexivity.
      * apply lookup_insert_eq.
    + rewrite (qa_guardrail_try_unclassified _ _ _ Hc), bump_and_return_run.
      right; left. cbn [fst snd except_failed].
      split; [vm_compute; reflexivity |]. split; [vm_compute; reflexivity |].
      split; [eexists; vm_compute; reflexivity |]. repeat split.
Qed.

(** ** Totality of the stages *)

(** C4, at the input where it fails: given a payload without classification,
    each worker raises [AttributeError] at its guard, before its [try]; no
    log entry is returned. *)
Theorem workers_raise_on_unclassified :
  classification unclassified_payload = None ∧
  admin_scheduling_agent unclassified_payload sample_world =
    (Raises (AttributeError "'NoneType' object has no attribute 'intent'"),
     sample_world) ∧
  support_faq_agent unclassified_payload sample_world =
    (Raises (AttributeError "'NoneType' object has no attribute 'intent'"),
     sample_world).
Proof. repeat split. Qed.

(** Ingestion, triage and the guardrail return on every payload, and a
    worker returns on every classified payload. *)
Theorem stage_returns (s : Stage) (payload : WorkflowPayload) (w : World) :
  worker_intent s = None ∨ is_Some (classification payload) →
  ∃ (payload' : WorkflowPayload) (log : Log) (w' : World),
    run_stage s payload w = (Returns (payload', log), w').
Proof.
  intros Hdom. pose proof (run_stage_outcome s payload w) as Hout.
  destruct (run_stage s payload w) as [[[payload' log] | e] w'].
  - by exists payload', log, w'.
  - destruct Hout as ([i Hi] & Hc & _).
    destruct Hdom as [Hs | [c Hc']]; congruence.
Qed.

Lemma stage_returns_witness :
  ∃ (payload' : WorkflowPayload) (log : Log) (w' : World),
    run_stage QAGuardrail unclassified_payload sample_world =
      (Returns (payload', log), w').
Proof.
  apply (stage_returns QAGuardrail unclassified_payload sample_world).
  left. reflexivity.
Defined.

(** ** The payload after a failed stage *)

(** C5, as the claim states it, fails: the guardrail on an unclassified
    payload ends with status [failed], and the payload it returns has
    [qa_risk_score] set where the input had none. *)
Lemma failed_guardrail_stores_risk_score :
  qa_risk_score unclassified_payload = None ∧
  ∃ (payload' : WorkflowPayload) (log : Log),
    qa_guardrail_agent unclassified_payload sample_world =
      (Returns (payload', log), tick sample_world) ∧
    log !! "status" = Some (VStr "failed") ∧
    qa_risk_score payload' = Some 0.2%float.
Proof.
  split; [reflexivity |].
  do 2 eexists. split; [reflexivity |]. split; vm_compute; reflexivity.
Qed.

(** C5, amended. Whenever a stage returns a log with status [failed], the
    payload it returns is the input payload with [updated_at] set to the
    clock's reading and [qa_risk_score] set to the guardrail's risk score,
    and nothing else changed: [classification], [qa_decision] and
    [action_plan] are the input's. *)
Theorem failed_stage_frame (s : Stage) (payload payload' : WorkflowPayload)
    (log : Log) (w w' : World) :
  run_stage s payload w = (Returns (payload', log), w') →
  log !! "status" = Some (VStr "failed") →
  payload' = set_updated_at (clock w (utc_calls w))
               (set_qa_risk_score (Some placeholder_risk_score) payload) ∧
  classification payload' = classification payload ∧
  qa_decision payload' = qa_decision payload ∧
  action_plan payload' = action_plan payload.
Proof.
  intros Hrun Hfailed. pose proof (run_stage_outcome s payload w) as Hout.
  rewrite Hrun in Hout.
  destruct Hout as [(c & _ & _ & _ & _ & Hst & _)
                   | [(_ & _ & _ & _ & _ & -> & _) | (_ & Hst & _)]].
  - congruence.
  - repeat split.
  - congruence.
Qed.

Lemma failed_stage_frame_witness :
  ∃ (payload' : WorkflowPayload) (log : Log) (w' : World),
    run_stage QAGuardrail unclassified_payload sample_world =
      (Returns (payload', log), w') ∧
    log !! "status" = Some (VStr "failed") ∧
    classification payload' = classification unclassified_payload ∧
    qa_decision payload' = qa_decision unclassified_payload ∧
    action_plan payload' = action_plan unclassified_payload.
Proof.
  do 3 eexists.
  assert (Hrun : run_stage QAGuardrail unclassified_payload sample_world =
                   (Returns (_, _), _)) by reflexivity.
  assert (Hfailed : (except_failed
                       (qa_guardrail_try placeholder_risk_score unclassified_payload
                          {[ "agent" := VStr "qa_guardrail";
                             "status" := VStr "pending" ]})).2 !! "status"
                    = Some (VStr "failed")) by (vm_compute; reflexivity).
  split; [exact Hrun |]. split; [exact Hfailed |].
  exact (proj2 (failed_stage_frame _ _ _ _ _ _ Hrun Hfailed)).
Defined.

(** ** A worker that skips *)

(** C6, at an input where it fails: [admin_scheduling_agent] on a payload
    classified as support returns at once, the payload untouched and
    [skipped] set in the log, but the log's status is still [pending]. *)
Theorem worker_skip_status_is_pending :
  ∃ log : Log,
    admin_scheduling_agent support_payload sample_world =
      (Returns (support_payload, log), sample_world) ∧
    log !! "skipped" = Some (VBool true) ∧
    log !! "status" = Some (VStr "pending") ∧
    log !! "status" ≠ Some (VStr "skipped").
Proof.
  eexists. split; [reflexivity |].
  split; [vm_compute; reflexivity |]. split; [vm_compute; reflexivity |].
  vm_compute. discriminate.
Qed.

(** A worker given a payload classified with another intent returns that
    payload as it is, reads no clock, and marks its log [skipped]. *)
Theorem worker_skip_frame (s : Stage) (i : Intent) (payload : WorkflowPayload)
    (c : Classification) (w : World) :
  worker_intent s = Some i →
  classification payload = Some c →
  intent c ≠ i →
  ∃ log : Log,
    run_stage s payload w = (Returns (payload, log), w) ∧
    log !! "skipped" = Some (VBool true).
Proof.
  intros Hs Hc Hi.
  destruct s; try discriminate; injection Hs as <-; cbn [run_stage];
    [unfold admin_scheduling_agent | unfold support_faq_agent];
    rewrite Hc, bool_decide_eq_true_2 by exact Hi;
    (eexists; split; [reflexivity | vm_compute; reflexivity]).
Qed.

Lemma worker_skip_frame_witness :
  ∃ log : Log,
    run_stage SupportFaq (sample_payload true (Some (classified BILLING 0.9)))
      sample_world =
      (Returns (sample_payload true (Some (classified BILLING 0.9)), log),
       sample_world) ∧
    log !! "skipped" = Some (VBool true).
Proof.
  apply (worker_skip_frame SupportFaq SUPPORT
           (sample_payload true (Some (classified BILLING 0.9)))
           (classified BILLING 0.9) sample_world);
    [reflexivity | reflexivity | discriminate].
Defined.

(** ** Timestamps *)

(** C7, as the claim states it, fails twice. A worker that skips does not
    set [updated_at]: the clock reads 100 and the payload keeps its 0. And a
    stage stores whatever the clock reads: when the reading (100) is earlier
    than the payload's [updated_at] (500), [updated_at] decreases. *)
Lemma skip_keeps_updated_at :
  (∃ (payload' : WorkflowPayload) (log : Log) (w' : World),
     admin_scheduling_agent support_payload sample_world =
       (Returns (payload', log), w') ∧
     log !! "skipped" = Some (VBool true) ∧
     clock sample_world (utc_calls sample_world) = 100%Z ∧
     updated_at payload' = 0%Z) ∧
  (∃ (payload' : WorkflowPayload) (log : Log) (w' : World),
     ingestion_agent (set_updated_at 500 support_payload) sample_world =
       (Returns (payload', log), w') ∧
     updated_at (set_updated_at 500 support_payload) = 500%Z ∧
     updated_at payload' = 100%Z).
Proof.
  split.
  - do 3 eexists. split; [reflexivity |].
    split; [vm_compute; reflexivity |]. split; reflexivity.
  - do 3 eexists. split; [reflexivity |]. split; reflexivity.
Qed.

(** C7, amended. A stage that returns with status [completed] or [failed]
    has set [updated_at] to the clock's reading. And whenever the clock does
    not read earlier than the payload's [updated_at], [updated_at] after a
    stage that returns is at least what it was before. *)
Theorem updated_at_after_stage (s : Stage) (payload payload' : WorkflowPayload)
    (log : Log) (w w' : World) :
  run_stage s payload w = (Returns (payload', log), w') →
  (log !! "status" = Some (VStr "completed") ∨
   log !! "status" = Some (VStr "failed") →
   updated_at payload' = clock w (utc_calls w)) ∧
  ((updated_at payload ≤ clock w (utc_calls w))%Z →
   (updated_at payload ≤ updated_at payload')%Z).
Proof.
  intros Hrun. pose proof (run_stage_outcome s payload w) as Hout.
  rewrite Hrun in Hout.
  destruct Hout as [(c & _ & _ & _ & _ & Hst & -> & _)
                   | [(_ & _ & _ & _ & _ & -> & _) | (_ & _ & Hup & _)]].
  - split; [| reflexivity].
    rewrite Hst. intros [[=] | [=]].
  - split; [reflexivity | intros Hle; exact Hle].
  - split; [intros _; exact Hup | intros Hle; by rewrite Hup].
Qed.

Lemma updated_at_after_stage_witness :
  ∃ (payload' : WorkflowPayload) (log : Log) (w' : World),
    run_stage Triage unclassified_payload sample_world =
      (Returns (payload', log), w') ∧
    (updated_at unclassified_payload ≤ updated_at payload')%Z.
Proof.
  do 3 eexists.
  assert (Hrun : run_stage Triage unclassified_payload sample_world =
                   (Returns (_, _), _)) by reflexivity.
  split; [exact Hrun |].
  apply (proj2 (updated_at_after_stage _ _ _ _ _ _ Hrun)).
  vm_compute. discriminate.
Defined.

(** ** Running the pipeline *)

Lemma bind_returns {A B : Type} (m : Py A) (k : A → Py B) (w w' : World) (a : A) :
  m w = (Returns a, w') → (m ≫= k) w = k a w'.
Proof. intros Hm. unfold mbind, Py_bind. by rewrite Hm. Qed.

Lemma bind_raises {A B : Type} (m : Py A) (k : A → Py B) (w w' : World)
    (e : Exception) :
  m w = (Raises e, w') → (m ≫= k) w = (Raises e, w').
Proof. intros Hm. unfold mbind, Py_bind. by rewrite Hm. Qed.

Lemma ingestion_agent_run (payload : WorkflowPayload) (w : World) :
  ∃ log : Log,
    ingestion_agent payload w =
      (Returns (set_updated_at (clock w (utc_calls w)) payload, log), tick w) ∧
    log !! "agent" = Some (VStr "ingestion").
Proof. eexists. split; [reflexivity | vm_compute; reflexivity]. Qed.

Lemma triage_agent_run (payload : WorkflowPayload) (w : World) :
  ∃ log : Log,
    triage_agent payload w =
      (Returns (set_updated_at (clock w (utc_calls w))
                  (set_classification (Some (classified SCHEDULING 0.85)) payload),
                log), tick w) ∧
    log !! "agent" = Some (VStr "triage").
Proof. eexists. split; [reflexivity | vm_compute; reflexivity]. Qed.

Lemma admin_scheduling_agent_run (payload : WorkflowPayload) (c : Classification)
    (w : World) :
  classification payload = Some c →
  intent c = SCHEDULING →
  ∃ log : Log,
    admin_scheduling_agent payload w =
      (Returns (set_updated_at (clock w (utc_calls w))
                  (set_action_plan
                     (action_plan payload ++
                      [reply_action
                         "Thank you for reaching out. Here are some available times..."])
                     payload),
                log), tick w) ∧
    log !! "agent" = Some (VStr "admin_scheduling").
Proof.
  intros Hc Hi. unfold admin_scheduling_agent.
  rewrite Hc, bool_decide_eq_false_2 by (intros Hne; by apply Hne).
  eexists. split; [reflexivity | vm_compute; reflexivity].
Qed.

Lemma qa_guardrail_agent_run (payload : WorkflowPayload) (c : Classification)
    (w : World) :
  classification payload = Some c →
  ∃ log : Log,
    qa_guardrail_agent payload w =
      (Returns (set_updated_at (clock w (utc_calls w))
                  (set_qa_decision
                     (Some (spec_decision (confidence c) placeholder_risk_score
                              (auto_send_enabled (tenant_config payload))
                              (escalation_threshold (tenant_config payload))))
                     (set_qa_risk_score (Some placeholder_risk_score) payload)),
                log), tick w) ∧
    log !! "agent" = Some (VStr "qa_guardrail").
Proof.
  intros Hc. unfold qa_guardrail_agent.
  rewrite (qa_guardrail_try_classified _ _ _ _ Hc), bump_and_return_run.
  eexists. split; [reflexivity |]. cbn [fst snd except_failed].
  rewrite !lookup_insert_ne by done. vm_compute; reflexivity.
Qed.

(** The pipeline on any initial payload: four stages run and return, the
    worker is the scheduling one, and the guardrail decides on the triage
    stage's classification. *)
Lemma run_pipeline_returns (payload : WorkflowPayload) (w : World) :
  ∃ (payload' : WorkflowPayload) (agent_logs : list Log),
    run_pipeline payload w =
      (Returns (payload', agent_logs), tick (tick (tick (tick w)))) ∧
    agents_of agent_logs =
      [Some (VStr "ingestion"); Some (VStr "triage");
       Some (VStr "admin_scheduling"); Some (VStr "qa_guardrail")] ∧
    classification payload' = Some (classified SCHEDULING 0.85) ∧
    qa_decision payload' =
      Some (spec_decision 0.85 placeholder_risk_score
              (auto_send_enabled (tenant_config payload))
              (escalation_threshold (tenant_config payload))) ∧
    action_plan payload' =
      action_plan payload ++
      [reply_action "Thank you for reaching out. Here are some available times..."].
Proof.
  destruct (ingestion_agent_run payload w) as (log1 & Hrun1 & Hag1).
  destruct (triage_agent_run
              (set_updated_at (clock w (utc_calls w)) payload) (tick w))
    as (log2 & Hrun2 & Hag2).
  set (payload2 := set_updated_at _ (set_classification _ _)) in Hrun2.
  destruct (admin_scheduling_agent_run payload2 (classified SCHEDULING 0.85)
              (tick (tick w)) eq_refl eq_refl) as (log3 & Hrun3 & Hag3).
  set (payload3 := set_updated_at _ (set_action_plan _ _)) in Hrun3.
  destruct (qa_guardrail_agent_run payload3 (classified SCHEDULING 0.85)
              (tick (tick (tick w))) eq_refl) as (log4 & Hrun4 & Hag4).
  do 2 eexists. split.
  - unfold run_pipeline.
    rewrite (bind_returns _ _ _ _ _ Hrun1).
    rewrite (bind_returns _ _ _ _ _ Hrun2).
    assert (Hroute : route_worker payload2 (([] ++ [log1]) ++ [log2]) (tick (tick w))
                     = (Returns (payload3, (([] ++ [log1]) ++ [log2]) ++ [log3]),
                        tick (tick (tick w)))).
    { unfold route_worker. cbn [classification payload2 set_updated_at set_classification].
      cbn [intent classified]. rewrite bool_decide_eq_true_2 by reflexivity.
      by rewrite (bind_returns _ _ _ _ _ Hrun3). }
    rewrite (bind_returns _ _ _ _ _ Hroute).
    rewrite (bind_returns _ _ _ _ _ Hrun4). reflexivity.
  - split.
    { unfold agents_of. cbn [fmap list_fmap app]. by rewrite Hag1, Hag2, Hag3, Hag4. }
    split; [reflexivity |]. split; reflexivity.
Qed.

(** ** Running the handler *)

Lemma catch_returns {A : Type} (m : Py A) (w w' : World) (a : A) :
  m w = (Returns a, w') → catch m w = (Returns (inr a), w').
Proof. intros Hm. unfold catch. by rewrite Hm. Qed.

Lemma catch_raises {A : Type} (m : Py A) (w w' : World) (e : Exception) :
  m w = (Raises e, w') → catch m w = (Returns (inl e), w').
Proof. intros Hm. unfold catch. by rewrite Hm. Qed.


(** A failed construction raises before the clock is read. *)
Lemma build_initial_raises (request : IncomingMessageRequest) (workflow_id : string)
    (w w' : World) (e : Exception) :
  build_initial request workflow_id w = (Raises e, w') → w' = w.
Proof.
  unfold build_initial, call, mbind, Py_bind.
  destruct (TenantConfig_init _ _); [| by intros [= _ <-]].
  destruct (Contact_init _); [| by intros [= _ <-]].
  destruct (Message_init _); [| by intros [= _ <-]].
  discriminate.
Qed.



(** ** The audit log of a completed run *)



(** ** A construction that fails *)

(** C9, as the claim states it, fails: for a request whose contact has no
    [email] the handler raises one HTTP 500 error, and the table has no row
    at all afterwards, so no record is marked [failed]. *)
Lemma construction_failure_stores_no_record :
  ∃ w' : World,
    handle_incoming_message malformed_request sample_world =
      (Raises (HTTPException 500
                 "Workflow processing failed: Contact.__init__() missing 1 required positional argument: 'email'"),
       w') ∧
    store w' = ∅ ∧
    store w' !! "7d0c" = None ∧
    commits w' = 0.
Proof.
  eexists. split; [vm_compute; reflexivity |].
  split; [reflexivity |]. split; reflexivity.
Qed.

(** C9, amended. When the construction of the tenant configuration, the
    contact or the message fails, the run is fatal: the handler raises a
    single HTTP 500 error carrying the constructor's message; no stage runs
    (the clock is never read, and the one event printed is the failure event,
    which has no agent logs); and no record is created: no commit is made
    and the table is left as it was. *)
Theorem construction_failure_is_fatal (request : IncomingMessageRequest)
    (w w1 : World) (e : Exception) :
  build_initial request (uuid_of w (uuid_calls w)) (drawn w) = (Raises e, w1) →
  ∃ w' : World,
    handle_incoming_message request w =
      (Raises (HTTPException 500 ("Workflow processing failed: " +:+ str e)), w') ∧
    store w' = store w ∧
    commits w' = commits w ∧
    utc_calls w' = utc_calls w ∧
    stdout w' =
      stdout w ++ [FailureEvent (uuid_of w (uuid_calls w)) "failed" (str e)].
Proof.
  intros Hbuild.
  pose proof (build_initial_raises _ _ _ _ _ Hbuild) as ->.
  eexists. split.
  - unfold handle_incoming_message.
    rewrite (bind_returns uuid4 _ w (drawn w) _ eq_refl).
    rewrite (bind_returns _ _ _ _ _ (catch_raises _ _ _ _ Hbuild)).
    reflexivity.
  - repeat split.
Qed.

Lemma construction_failure_is_fatal_witness :
  ∃ (e : Exception) (w' : World),
    build_initial malformed_request "7d0c" (drawn sample_world) =
      (Raises e, drawn sample_world) ∧
    handle_incoming_message malformed_request sample_world =
      (Raises (HTTPException 500 ("Workflow processing failed: " +:+ str e)), w') ∧
    store w' = store sample_world.
Proof.
  eexists.
  assert (Hbuild : build_initial malformed_request
                     (uuid_of sample_world (uuid_calls sample_world))
                     (drawn sample_world) = (Raises _, drawn sample_world))
    by reflexivity.
  destruct (construction_failure_is_fatal _ _ _ _ Hbuild)
    as (w' & Hrun & Hstore & _).
  exists w'. split; [exact Hbuild |]. split; [exact Hrun | exact Hstore].
Defined.

(** ** The decision of a completed run *)



(** ** Further properties of the routing and of the rule *)

(** Escalation dominance: on a classified payload, a confidence below the
    tenant's threshold or a risk score above 0.7 makes the guardrail's body
    decide [ESCALATE], whatever the auto-send flag. *)
Theorem escalation_dominance (risk_score : float) (payload : WorkflowPayload)
    (c : Classification) (log : Log) :
  classification payload = Some c →
  (confidence c <? escalation_threshold (tenant_config payload))%float = true ∨
  (0.7 <? risk_score)%float = true →
  ∃ (payload' : WorkflowPayload) (log' : Log),
    qa_guardrail_try risk_score payload log = (payload', log', None) ∧
    qa_decision payload' = Some ESCALATE.
Proof.
  intros Hc Hesc. rewrite (qa_guardrail_try_classified _ _ _ _ Hc).
  do 2 eexists. split; [reflexivity |]. cbn [qa_decision set_qa_decision].
  unfold spec_decision. destruct Hesc as [-> | ->]; [reflexivity |].
  by rewrite orb_true_r.
Qed.

Lemma escalation_dominance_witness :
  ∃ (payload' : WorkflowPayload) (log' : Log),
    qa_guardrail_try 0.2 (sample_payload true (Some (classified SCHEDULING 0.5))) ∅
      = (payload', log', None) ∧
    qa_decision payload' = Some ESCALATE.
Proof.
  apply (escalation_dominance 0.2
           (sample_payload true (Some (classified SCHEDULING 0.5)))
           (classified SCHEDULING 0.5) ∅ eq_refl).
  left. reflexivity.
Defined.

(** The routing step on a payload without classification appends no log
    entry and calls no worker. *)
Theorem route_worker_unclassified (payload : WorkflowPayload)
    (agent_logs : list Log) (w : World) :
  classification payload = None →
  route_worker payload agent_logs w = (Returns (payload, agent_logs), w).
Proof. intros Hc. unfold route_worker. by rewrite Hc. Qed.

Lemma route_worker_unclassified_witness :
  route_worker unclassified_payload [] sample_world =
    (Returns (unclassified_payload, []), sample_world).
Proof.
  apply (route_worker_unclassified unclassified_payload [] sample_world).
  reflexivity.
Defined.

(** The pipeline appends exactly one action to the plan, the scheduling
    worker's reply. *)
Theorem pipeline_appends_one_reply (payload : WorkflowPayload) (w : World) :
  ∃ (payload' : WorkflowPayload) (agent_logs : list Log) (w' : World),
    run_pipeline payload w = (Returns (payload', agent_logs), w') ∧
    length (action_plan payload') = S (length (action_plan payload)) ∧
    action_type <$> last (action_plan payload') = Some "reply".
Proof.
  destruct (run_pipeline_returns payload w)
    as (payload' & agent_logs & Hrun & _ & _ & _ & Hplan).
  eexists payload', agent_logs, _. split; [exact Hrun |].
  rewrite Hplan. split.
  - rewrite length_app. cbn [length]. by rewrite Nat.add_1_r.
  - by rewrite last_snoc.
Qed.

(** Closes the conjuncts of a frame statement that hold by computation. *)
Ltac unchanged :=
  repeat match goal with
         | |- _ ∧ _ => split
         | |- _ → _ => intros _
         | |- _ ∨ _ => left
         | |- _ = _ => reflexivity
         | H : _ = ?y |- _ = ?y => exact H
         end.

(** What a stage may change. Only triage changes the classification; only
    the guardrail changes the decision, and only on a classified payload;
    the action plan either stays or gets one reply appended, by the worker
    whose intent is the classified one; the identity, the input and the
    tenant configuration never change. *)
Theorem stage_effects (s : Stage) (payload payload' : WorkflowPayload)
    (log : Log) (w w' : World) :
  run_stage s payload w = (Returns (payload', log), w') →
  (s ≠ Triage → classification payload' = classification payload) ∧
  (s ≠ QAGuardrail ∨ classification payload = None →
   qa_decision payload' = qa_decision payload) ∧
  (action_plan payload' = action_plan payload ∨
   ∃ (c : Classification) (reply_text : string),
     classification payload = Some c ∧
     worker_intent s = Some (intent c) ∧
     action_plan payload' = action_plan payload ++ [reply_action reply_text]) ∧
  workflow_id payload' = workflow_id payload ∧
  tenant_config payload' = tenant_config payload ∧
  message payload' = message payload ∧
  created_at payload' = created_at payload.
Proof.
  destruct s; cbn [run_stage].
  - intros [= <- _ _]. unchanged.
  - intros [= <- _ _]. split; [done |]. unchanged.
  - unfold admin_scheduling_agent.
    destruct (classification payload) as [c |] eqn:Hc; [| discriminate].
    case_bool_decide as Hi.
    + intros [= <- _ _]. unchanged.
    + rewrite bump_and_return_run. intros [= <- _ _].
      split; [intros _; exact Hc |]. split; [intros _; reflexivity |].
      split; [| unchanged].
      right. eexists c, _. split; [reflexivity |]. split; [| reflexivity].
      cbn [worker_intent]. by rewrite Hi.
  - unfold support_faq_agent.
    destruct (classification payload) as [c |] eqn:Hc; [| discriminate].
    case_bool_decide as Hi.
    + intros [= <- _ _]. unchanged.
    + rewrite bump_and_return_run. intros [= <- _ _].
      split; [intros _; exact Hc |]. split; [intros _; reflexivity |].
      split; [| unchanged].
      right. eexists c, _. split; [reflexivity |]. split; [| reflexivity].
      cbn [worker_intent]. by rewrite Hi.
  - unfold qa_guardrail_agent.
    destruct (classification payload) as [c |] eqn:Hc.
    + rewrite (qa_guardrail_try_classified _ _ _ _ Hc), bump_and_return_run.
      intros [= <- _ _]. split; [intros _; exact Hc |]. split; [| unchanged].
      intros [Hs | Hn]; [by destruct Hs | discriminate].
    + rewrite (qa_guardrail_try_unclassified _ _ _ Hc), bump_and_return_run.
      intros [= <- _ _]. unchanged.
Qed.

Lemma stage_effects_witness :
  ∃ (payload' : WorkflowPayload) (log : Log) (w' : World),
    run_stage AdminScheduling (sample_payload true (Some (classified SCHEDULING 0.9)))
      sample_world = (Returns (payload', log), w') ∧
    tenant_config payload' = sample_config true.
Proof.
  do 3 eexists.
  assert (Hrun : run_stage AdminScheduling
                   (sample_payload true (Some (classified SCHEDULING 0.9)))
                   sample_world = (Returns (_, _), _)) by reflexivity.
  split; [exact Hrun |].
  exact (proj1 (proj2 (proj2 (proj2 (proj2 (stage_effects _ _ _ _ _ _ Hrun)))))).
Defined.

(** With auto-send disabled the guardrail returns on every payload, and the
    decision afterwards is [ESCALATE] or [DRAFT_ONLY], or, on an unclassified
    payload, whatever it was before: the stage never introduces
    [AUTO_SEND]. *)
Theorem gated_guardrail_on_any_payload (payload : WorkflowPayload) (w : World) :
  auto_send_enabled (tenant_config payload) = false →
  ∃ (payload' : WorkflowPayload) (log : Log),
    qa_guardrail_agent payload w = (Returns (payload', log), tick w) ∧
    (qa_decision payload' = Some ESCALATE ∨
     qa_decision payload' = Some DRAFT_ONLY ∨
     classification payload = None ∧ qa_decision payload' = qa_decision payload).
Proof.
  intros Hoff. unfold qa_guardrail_agent.
  destruct (classification payload) as [c |] eqn:Hc.
  - rewrite (qa_guardrail_try_classified _ _ _ _ Hc), bump_and_return_run.
    do 2 eexists. split; [reflexivity |].
    cbn [fst snd except_failed qa_decision set_updated_at set_qa_decision].
    rewrite Hoff.
    destruct (spec_decision_gated (confidence c) placeholder_risk_score
                (escalation_threshold (tenant_config payload))) as [-> | ->];
      [by left | right; by left].
  - rewrite (qa_guardrail_try_unclassified _ _ _ Hc), bump_and_return_run.
    do 2 eexists. split; [reflexivity |]. right; right. by split.
Qed.

Lemma gated_guardrail_on_any_payload_witness :
  ∃ (payload' : WorkflowPayload) (log : Log),
    qa_guardrail_agent unclassified_payload sample_world =
      (Returns (payload', log), tick sample_world) ∧
    (qa_decision payload' = Some ESCALATE ∨
     qa_decision payload' = Some DRAFT_ONLY ∨
     classification unclassified_payload = None ∧
     qa_decision payload' = qa_decision unclassified_payload).
Proof.
  apply (gated_guardrail_on_any_payload unclassified_payload sample_world).
  reflexivity.
Defined.

(** ** Every path through the handler *)

(** What a successful construction yields: four clock readings, a payload
    without enrichment and a record in state [processing]. *)
Lemma build_initial_returns (request : IncomingMessageRequest) (wid : string)
    (w w1 : World) (payload0 : WorkflowPayload) (record0 : WorkflowRecord) :
  build_initial request wid w = (Returns (payload0, record0), w1) →
  w1 = tick (tick (tick (tick w))) ∧
  TenantConfig_init (req_tenant_id request)
    (default no_kwargs (req_tenant_config request))
    = Returns (tenant_config payload0) ∧
  workflow_id payload0 = wid ∧
  classification payload0 = None ∧
  qa_decision payload0 = None ∧
  action_plan payload0 = [] ∧
  created_at payload0 = clock w (utc_calls w) ∧
  updated_at payload0 = clock w (S (utc_calls w)) ∧
  record0 =
    {| rec_workflow_id := wid; rec_tenant_id := req_tenant_id request;
       rec_payload := payload0;
       rec_created_at := clock w (S (S (utc_calls w)));
       rec_updated_at := clock w (S (S (S (utc_calls w))));
       rec_status := "processing" |}.
Proof.
  unfold build_initial, call, mbind, Py_bind.
  destruct (TenantConfig_init _ _); [| discriminate].
  destruct (Contact_init _); [| discriminate].
  destruct (Message_init _); [| discriminate].
  intros [= <- <- <-]. repeat split.
Qed.


(** The [except] clause with [record] bound, when its commit raises: the
    database error leaves the handler and nothing is printed. *)
Lemma on_exception_commit_raises (wid : string) (record : WorkflowRecord)
    (e : Exception) (w : World) :
  commit_raises w (commits w) = true →
  on_exception wid (Some record) e w =
    (Raises (OperationalError "could not commit"),
     committed (store w) (tick w)).
Proof.
  intros Hc. unfold on_exception, mbind, Py_bind, utcnow, db_commit.
  cbn [tick commit_raises commits]. by rewrite Hc.
Qed.

(** The [except] clause with [record] bound, when its commit succeeds: the
    row is written with status [failed], the failure is printed and an HTTP
    500 raised. *)
Lemma on_exception_commit_succeeds (wid : string) (record : WorkflowRecord)
    (e : Exception) (w : World) :
  commit_raises w (commits w) = false →
  on_exception wid (Some record) e w =
    (Raises (HTTPException 500 ("Workflow processing failed: " +:+ str e)),
     printed (FailureEvent wid "failed" (str e))
       (committed
          (<[rec_workflow_id record :=
               set_rec_failed (clock w (utc_calls w)) record]> (store w))
          (tick w))).
Proof.
  intros Hc. unfold on_exception, mbind, Py_bind, utcnow, db_commit.
  cbn [tick commit_raises commits]. by rewrite Hc.
Qed.

(** The handler when the first commit raises. *)
Lemma handle_first_commit_raises (request : IncomingMessageRequest) (w w1 : World)
    (payload0 : WorkflowPayload) (record0 : WorkflowRecord) :
  build_initial request (uuid_of w (uuid_calls w)) (drawn w)
    = (Returns (payload0, record0), w1) →
  commit_raises w1 (commits w1) = true →
  handle_incoming_message request w =
    on_exception (uuid_of w (uuid_calls w)) (Some record0)
      (OperationalError "could not commit") (committed (store w1) w1).
Proof.
  intros Hbuild Hcommit. unfold handle_incoming_message.
  rewrite (bind_returns uuid4 _ w (drawn w) _ eq_refl).
  rewrite (bind_returns _ _ _ _ _ (catch_returns _ _ _ _ Hbuild)).
  assert (Hc : (db_commit record0 ≫= λ _, run_pipeline payload0) w1
               = (Raises (OperationalError "could not commit"),
                  committed (store w1) w1)).
  { apply bind_raises. unfold db_commit. by rewrite Hcommit. }
  by rewrite (bind_returns _ _ _ _ _ (catch_raises _ _ _ _ Hc)).
Qed.

(** The handler when the first commit succeeds, up to the final commit. *)
Lemma handle_second_commit (request : IncomingMessageRequest) (w w1 w2 : World)
    (payload0 payload : WorkflowPayload) (record0 : WorkflowRecord)
    (agent_logs : list Log) :
  build_initial request (uuid_of w (uuid_calls w)) (drawn w)
    = (Returns (payload0, record0), w1) →
  commit_raises w1 (commits w1) = false →
  run_pipeline payload0
    (committed (<[rec_workflow_id record0 := record0]> (store w1)) w1)
    = (Returns (payload, agent_logs), w2) →
  let wid := uuid_of w (uuid_calls w) in
  let record := set_rec_completed payload (clock w2 (utc_calls w2)) record0 in
  handle_incoming_message request w =
    if commit_raises w2 (commits w2) then
      on_exception wid (Some record) (OperationalError "could not commit")
        (committed (store w2) (tick w2))
    else
      (Returns
         {| resp_workflow_id := wid;
            resp_decision := QADecision_value <$> qa_decision payload;
            resp_status := "completed";
            resp_message := Some "Workflow processed successfully" |},
       printed
         (WorkflowEvent wid (correlation_id payload) (req_tenant_id request)
            agent_logs (QADecision_value <$> qa_decision payload)
            (Intent_value ∘ intent <$> classification payload))
         (committed (<[rec_workflow_id record0 := record]> (store w2)) (tick w2))).
Proof.
  intros Hbuild Hcommit Hpipe wid record. unfold handle_incoming_message.
  rewrite (bind_returns uuid4 _ w (drawn w) _ eq_refl).
  rewrite (bind_returns _ _ _ _ _ (catch_returns _ _ _ _ Hbuild)).
  assert (Hc : (db_commit record0 ≫= λ _, run_pipeline payload0) w1
               = (Returns (payload, agent_logs), w2)).
  { rewrite (bind_returns _ _ w1
               (committed (<[rec_workflow_id record0 := record0]> (store w1)) w1) ());
      [exact Hpipe |].
    unfold db_commit. by rewrite Hcommit. }
  rewrite (bind_returns _ _ _ _ _ (catch_returns _ _ _ _ Hc)).
  rewrite (bind_returns _ _ w2 (tick w2) (inr record) eq_refl).
  destruct (commit_raises w2 (commits w2)) eqn:Hcommit2.
  - assert (Hf : finish wid request payload agent_logs record (tick w2)
                 = (Raises (OperationalError "could not commit"),
                    committed (store w2) (tick w2))).
    { unfold finish. apply bind_raises. unfold db_commit.
      cbn [tick commit_raises commits]. by rewrite Hcommit2. }
    by rewrite (bind_returns _ _ _ _ _ (catch_raises _ _ _ _ Hf)).
  - assert (Hf : finish wid request payload agent_logs record (tick w2)
                 = (Returns
                      {| resp_workflow_id := wid;
                         resp_decision := QADecision_value <$> qa_decision payload;
                         resp_status := "completed";
                         resp_message := Some "Workflow processed successfully" |},
                    printed
                      (WorkflowEvent wid (correlation_id payload)
                         (req_tenant_id request) agent_logs
                         (QADecision_value <$> qa_decision payload)
                         (Intent_value ∘ intent <$> classification payload))
                      (committed (<[rec_workflow_id record0 := record]> (store w2))
                         (tick w2)))).
    { unfold finish, db_commit, mbind, Py_bind, log_automation_event.
      cbn [tick commit_raises commits]. by rewrite Hcommit2. }
    by rewrite (bind_returns _ _ _ _ _ (catch_returns _ _ _ _ Hf)).
Qed.

(** The six ways a run of the handler can go, by the outcome of the
    construction and of the commits it makes, with the table and the output
    they leave. *)
Lemma handle_cases (request : IncomingMessageRequest) (w : World) :
  let wid := uuid_of w (uuid_calls w) in
  let first := commit_raises w (commits w) in
  let second := commit_raises w (S (commits w)) in
  let third := commit_raises w (S (S (commits w))) in
  let failed := FailureEvent wid "failed" "could not commit" in
  ∃ (out : Outcome WorkflowResponse) (w' : World),
    handle_incoming_message request w = (out, w') ∧
    ((∃ e : Exception,
        build_initial request wid (drawn w) = (Raises e, drawn w) ∧
        out = Raises (HTTPException 500 ("Workflow processing failed: " +:+ str e)) ∧
        store w' = store w ∧
        stdout w' = stdout w ++ [FailureEvent wid "failed" (str e)])
     ∨ ∃ (payload0 : WorkflowPayload) (record0 : WorkflowRecord) (w1 : World),
         build_initial request wid (drawn w) = (Returns (payload0, record0), w1) ∧
         ((first = true ∧ second = true ∧
           out = Raises (OperationalError "could not commit") ∧
           store w' = store w ∧ stdout w' = stdout w)
          ∨ (first = true ∧ second = false ∧
             out = Raises (HTTPException 500
                             "Workflow processing failed: could not commit") ∧
             store w' =
               <[wid := set_rec_failed (clock w (4 + utc_calls w)) record0]> (store w) ∧
             stdout w' = stdout w ++ [failed])
          ∨ ∃ (payload : WorkflowPayload) (agent_logs : list Log) (w2 : World),
              first = false ∧
              run_pipeline payload0
                (committed (<[rec_workflow_id record0 := record0]> (store w1)) w1)
                = (Returns (payload, agent_logs), w2) ∧
              let record := set_rec_completed payload (clock w (8 + utc_calls w)) record0 in
              ((second = true ∧ third = true ∧
                out = Raises (OperationalError "could not commit") ∧
                store w' = <[wid := record0]> (store w) ∧ stdout w' = stdout w)
               ∨ (second = true ∧ third = false ∧
                  out = Raises (HTTPException 500
                                  "Workflow processing failed: could not commit") ∧
                  store w' =
                    <[wid := set_rec_failed (clock w (9 + utc_calls w)) record]>
                      (<[wid := record0]> (store w)) ∧
                  stdout w' = stdout w ++ [failed])
               ∨ (second = false ∧
                  out = Returns
                          {| resp_workflow_id := wid;
                             resp_decision := QADecision_value <$> qa_decision payload;
                             resp_status := "completed";
                             resp_message := Some "Workflow processed successfully" |} ∧
                  store w' = <[wid := record]> (<[wid := record0]> (store w)) ∧
                  stdout w' =
                    stdout w ++
                    [WorkflowEvent wid (correlation_id payload) (req_tenant_id request)
                       agent_logs (QADecision_value <$> qa_decision payload)
                       (Intent_value ∘ intent <$> classification payload)])))).
Proof.
  intros wid first second third failed.
  destruct (build_initial request wid (drawn w))
    as [[[payload0 record0] | e] w1] eqn:Hbuild.
  2: { pose proof (build_initial_raises _ _ _ _ _ Hbuild) as ->.
       do 2 eexists. split.
       - unfold handle_incoming_message.
         rewrite (bind_returns uuid4 _ w (drawn w) _ eq_refl).
         rewrite (bind_returns _ _ _ _ _ (catch_raises _ _ _ _ Hbuild)).
         reflexivity.
       - left. exists e. repeat split. }
  destruct (build_initial_returns _ _ _ _ _ _ Hbuild)
    as (Hw1 & _ & _ & _ & _ & _ & _ & _ & Hrecord0).
  assert (Hid : rec_workflow_id record0 = wid) by (by rewrite Hrecord0).
  destruct first eqn:Hfirst.
  - rewrite (handle_first_commit_raises _ _ _ _ _ Hbuild)
      by (rewrite Hw1; exact Hfirst).
    destruct second eqn:Hsecond.
    + rewrite on_exception_commit_raises by (rewrite Hw1; exact Hsecond).
      do 2 eexists. split; [reflexivity |]. right. exists payload0, record0, w1.
      split; [reflexivity |]. left. rewrite Hw1. repeat split.
    + rewrite on_exception_commit_succeeds by (rewrite Hw1; exact Hsecond).
      do 2 eexists. split; [reflexivity |]. right. exists payload0, record0, w1.
      split; [reflexivity |]. right; left. rewrite Hid, Hw1. repeat split.
  - destruct (run_pipeline_returns payload0
                (committed (<[rec_workflow_id record0 := record0]> (store w1)) w1))
      as (payload & agent_logs & Hpipe & _).
    rewrite (handle_second_commit _ _ _ _ _ _ _ _ Hbuild
               ltac:(rewrite Hw1; exact Hfirst) Hpipe).
    set (w2 := tick (tick (tick (tick (committed _ w1))))) in *.
    assert (Hsecond' : commit_raises w2 (commits w2) = second)
      by (subst w2; rewrite Hw1; reflexivity).
    rewrite Hsecond'. destruct second eqn:Hsecond.
    + destruct third eqn:Hthird.
      * rewrite on_exception_commit_raises
          by (subst w2; rewrite Hw1; exact Hthird).
        do 2 eexists. split; [reflexivity |]. right. exists payload0, record0, w1.
        split; [reflexivity |]. right; right. exists payload, agent_logs, w2.
        split; [reflexivity |]. split; [exact Hpipe |]. left.
        subst w2. rewrite Hid, Hw1. repeat split.
      * rewrite on_exception_commit_succeeds
          by (subst w2; rewrite Hw1; exact Hthird).
        do 2 eexists. split; [reflexivity |]. right. exists payload0, record0, w1.
        split; [reflexivity |]. right; right. exists payload, agent_logs, w2.
        split; [reflexivity |]. split; [exact Hpipe |]. right; left.
        subst w2. cbn [rec_workflow_id set_rec_completed]. rewrite Hid, Hw1.
        repeat split.
    + do 2 eexists. split; [reflexivity |]. right. exists payload0, record0, w1.
      split; [reflexivity |]. right; right. exists payload, agent_logs, w2.
      split; [reflexivity |]. split; [exact Hpipe |]. right; right.
      subst w2. rewrite Hid, Hw1. repeat split.
Qed.

(** The handler writes no row but the one of the identifier it drew:
    whatever the outcome, every other row of the table is as it was. *)
Theorem handle_touches_only_its_row (request : IncomingMessageRequest)
    (w w' : World) (out : Outcome WorkflowResponse) (k : string) :
  handle_incoming_message request w = (out, w') →
  k ≠ uuid_of w (uuid_calls w) →
  store w' !! k = store w !! k.
Proof.
  intros Hrun Hk.
  destruct (handle_cases request w) as (out' & w'' & Hrun' & Hcases).
  rewrite Hrun in Hrun'. injection Hrun' as <- <-.
  destruct Hcases as
    [(e & _ & _ & -> & _)
    | (payload0 & record0 & w1 & _ &
       [(_ & _ & _ & -> & _)
       | [(_ & _ & _ & -> & _)
         | (payload & agent_logs & w2 & _ & _ &
            [(_ & _ & _ & -> & _)
            | [(_ & _ & _ & -> & _) | (_ & _ & -> & _)]])]])];
    rewrite ?lookup_insert_ne by (intros Heq; by apply Hk); reflexivity.
Qed.

Lemma handle_touches_only_its_row_witness :
  ∃ (out : Outcome WorkflowResponse) (w' : World),
    handle_incoming_message sample_request busy_world = (out, w') ∧
    store w' !! "b2e4" = store busy_world !! "b2e4".
Proof.
  do 2 eexists.
  assert (Hrun : handle_incoming_message sample_request busy_world = (_, _))
    by (vm_compute; reflexivity).
  split; [exact Hrun |].
  apply (handle_touches_only_its_row _ _ _ _ "b2e4" Hrun). discriminate.
Defined.















(** After a construction that fails, the identifier the failure event names
    cannot be retrieved: if no row had it before the run, [get_workflow]
    answers 404. *)
Theorem get_workflow_after_failed_construction (request : IncomingMessageRequest)
    (w w1 : World) (e : Exception) :
  build_initial request (uuid_of w (uuid_calls w)) (drawn w) = (Raises e, w1) →
  store w !! uuid_of w (uuid_calls w) = None →
  ∃ w' : World,
    handle_incoming_message request w =
      (Raises (HTTPException 500 ("Workflow processing failed: " +:+ str e)), w') ∧
    last (stdout w') = Some (FailureEvent (uuid_of w (uuid_calls w)) "failed" (str e)) ∧
    get_workflow (uuid_of w (uuid_calls w)) w' =
      (Raises (HTTPException 404
                 ("Workflow " +:+ uuid_of w (uuid_calls w) +:+ " not found")), w').
Proof.
  intros Hbuild Hfresh.
  destruct (handle_cases request w) as (out & w' & Hrun & Hcases).
  cbv zeta in Hcases. rewrite Hbuild in Hcases.
  destruct Hcases as
    [(e' & [= <- _] & -> & Hstore & Hout) | (? & ? & ? & [=] & _)].
  exists w'. split; [exact Hrun |]. split.
  - rewrite Hout. apply last_snoc.
  - unfold get_workflow. by rewrite Hstore, Hfresh.
Qed.

Lemma get_workflow_after_failed_construction_witness :
  ∃ w' : World,
    handle_incoming_message malformed_request busy_world =
      (Raises (HTTPException 500
                 "Workflow processing failed: Contact.__init__() missing 1 required positional argument: 'email'"),
       w') ∧
    get_workflow "7d0c" w' =
      (Raises (HTTPException 404 "Workflow 7d0c not found"), w').
Proof.
  assert (Hbuild : build_initial malformed_request
                     (uuid_of busy_world (uuid_calls busy_world)) (drawn busy_world)
                   = (Raises _, drawn busy_world)) by reflexivity.
  destruct (get_workflow_after_failed_construction _ _ _ _ Hbuild eq_refl)
    as (w' & Hrun & _ & Hget).
  exists w'. split; [exact Hrun | exact Hget].
Defined.

(** ** Listing the table *)

Set Warnings "-clear-no-such-hyp".

#[global] Instance newer_first_trans : Transitive newer_first.
Proof. intros r1 r2 r3. unfold newer_first. lia. Qed.

#[global] Instance newer_first_total : Total newer_first.
Proof. intros r1 r2. unfold newer_first. lia. Qed.









(** ** The calendar slots *)

(** A loop that ends normally has appended the slots of the indices it
    went through. *)
Lemma slots_loop_Some (now : datetime) (duration_minutes : Z) (tz : string)
    (n : nat) (i : Z) (acc slots : list Slot) :
  slots_loop now duration_minutes tz i n acc = Some slots →
  slots =
    acc ++ ((λ j : nat, slot_at now duration_minutes tz (i + Z.of_nat j)) <$> seq 0 n).
Proof.
  revert i acc. induction n as [| n IH]; intros i acc; cbn [slots_loop].
  - intros [= <-]. by rewrite app_nil_r.
  - unfold timedelta, datetime_add.
    case_bool_decide; [| discriminate]. cbn [mbind option_bind].
    case_bool_decide; [| discriminate]. cbn [mbind option_bind].
    intros Hloop. apply IH in Hloop as ->.
    rewrite <- app_assoc. f_equal. cbn [seq fmap list_fmap app].
    f_equal.
    + unfold slot_at. do 3 f_equal. lia.
    + rewrite <- fmap_S_seq, <- list_fmap_compose. apply list_fmap_ext.
      intros _ j _. cbn. f_equal. lia.
Qed.

(** The loop ends normally when the last of its slots is a datetime. *)
Lemma slots_loop_in_range (now : datetime) (duration_minutes : Z) (tz : string)
    (n : nat) (i : Z) (acc : list Slot) :
  (0 ≤ now)%Z → (0 ≤ i)%Z →
  (i + Z.of_nat n ≤ 999999999)%Z →
  (n ≠ 0%nat →
   (now + ((i + Z.of_nat n) * 24 + 10) * 3600000000 ≤ datetime_max)%Z) →
  is_Some (slots_loop now duration_minutes tz i n acc).
Proof.
  revert i acc. induction n as [| n IH]; intros i acc Hnow Hi Hdays Hmax;
    cbn [slots_loop]; [by eexists |].
  specialize (Hmax ltac:(done)).
  unfold timedelta, datetime_add.
  rewrite bool_decide_eq_true_2 by lia. cbn [mbind option_bind].
  rewrite bool_decide_eq_true_2 by lia. cbn [mbind option_bind].
  apply IH; [lia | lia | lia |]. intros _.
  replace (i + 1 + Z.of_nat n)%Z with (i + Z.of_nat (S n))%Z by lia. exact Hmax.
Qed.

(** The loop raises when the last of its slots is past [datetime.max]. *)
Lemma slots_loop_overflow (now : datetime) (duration_minutes : Z) (tz : string)
    (n : nat) (i : Z) (acc : list Slot) :
  (0 < n)%nat →
  (datetime_max < now + ((i + Z.of_nat n) * 24 + 10) * 3600000000)%Z →
  slots_loop now duration_minutes tz i n acc = None.
Proof.
  revert i acc. induction n as [| n IH]; intros i acc Hn Hmax; [lia |].
  cbn [slots_loop]. unfold timedelta, datetime_add.
  case_bool_decide; [| reflexivity]. cbn [mbind option_bind].
  case_bool_decide; [| reflexivity]. cbn [mbind option_bind].
  destruct n as [| n]; [lia |].
  apply IH; lia.
Qed.

(** [find_calendar_slots] returns [num_slots] slots (none when [num_slots]
    is zero or negative), provided the last of them is still a datetime: the
    slot of index [i] starts [i + 1] days and 10 hours after the clock's
    reading, with the duration asked for and the tenant's time zone. The
    clock is read once. *)
Theorem find_calendar_slots_returns (tenant_config : TenantConfig)
    (num_slots duration_minutes days_ahead : Z) (w : World) :
  (0 ≤ clock w (utc_calls w))%Z →
  (num_slots ≤ 999999999)%Z →
  ((0 < num_slots)%Z →
   (clock w (utc_calls w) + (num_slots * 24 + 10) * 3600000000 ≤ datetime_max)%Z) →
  ∃ slots : list Slot,
    find_calendar_slots tenant_config num_slots duration_minutes days_ahead w
      = (Some slots, tick w) ∧
    length slots = Z.to_nat num_slots ∧
    ∀ (i : nat) (slot : Slot),
      slots !! i = Some slot →
      slot_start slot =
        (clock w (utc_calls w) + ((Z.of_nat i + 1) * 24 + 10) * 3600000000)%Z ∧
      slot_duration_minutes slot = duration_minutes ∧
      slot_timezone slot = timezone tenant_config.
Proof.
  intros Hnow Hdays Hmax. unfold find_calendar_slots.
  destruct (slots_loop_in_range (clock w (utc_calls w)) duration_minutes
              (timezone tenant_config) (Z.to_nat num_slots) 0 [])
    as [slots Hloop]; [lia | lia | lia | |].
  { intros Hn. rewrite Z2Nat.id by lia. apply Hmax. lia. }
  exists slots. rewrite Hloop. split; [reflexivity |].
  apply slots_loop_Some in Hloop as ->. cbn [app].
  split; [by rewrite length_fmap, length_seq |].
  intros i slot Hslot. rewrite list_lookup_fmap in Hslot.
  destruct (seq 0 (Z.to_nat num_slots) !! i) as [j |] eqn:Hj; [| discriminate].
  apply lookup_seq in Hj as [-> _]. injection Hslot as <-.
  cbn [slot_at slot_start slot_duration_minutes slot_timezone plus].
  repeat split.
Qed.

Lemma find_calendar_slots_returns_witness :
  ∃ slots : list Slot,
    find_calendar_slots (sample_config false) 3 30 7 sample_world
      = (Some slots, tick sample_world) ∧
    length slots = 3%nat.
Proof.
  destruct (find_calendar_slots_returns (sample_config false) 3 30 7 sample_world)
    as (slots & Hrun & Hlen & _);
    [vm_compute; discriminate | vm_compute; discriminate
    | intros _; vm_compute; discriminate |].
  exists slots. split; [exact Hrun | exact Hlen].
Defined.

(** The slots [find_calendar_slots] returns are one per day, in order: a
    later slot starts a whole number of days after an earlier one, and the
    first starts 34 hours after the clock's reading. The search window plays
    no part: the slot of index [i] starts more than [i + 1] days ahead,
    whatever [days_ahead] is. *)
Theorem find_calendar_slots_daily (tenant_config : TenantConfig)
    (num_slots duration_minutes days_ahead : Z) (w w' : World)
    (slots : list Slot) :
  find_calendar_slots tenant_config num_slots duration_minutes days_ahead w
    = (Some slots, w') →
  (∀ (i j : nat) (s1 s2 : Slot),
     slots !! i = Some s1 → slots !! j = Some s2 →
     (slot_start s2 - slot_start s1 = (Z.of_nat j - Z.of_nat i) * 86400000000)%Z) ∧
  (∀ s : Slot,
     slots !! 0%nat = Some s →
     slot_start s = (clock w (utc_calls w) + 34 * 3600000000)%Z) ∧
  (∀ (i : nat) (s : Slot),
     slots !! i = Some s →
     (clock w (utc_calls w) + (Z.of_nat i + 1) * 86400000000 < slot_start s)%Z).
Proof.
  unfold find_calendar_slots. intros [= Hloop _].
  apply slots_loop_Some in Hloop as ->. cbn [app].
  assert (Hat : ∀ (i : nat) (s : Slot),
            ((λ j : nat, slot_at (clock w (utc_calls w)) duration_minutes
                           (timezone tenant_config) (0 + Z.of_nat j))
               <$> seq 0 (Z.to_nat num_slots)) !! i = Some s →
            slot_start s =
              (clock w (utc_calls w) + ((Z.of_nat i + 1) * 24 + 10) * 3600000000)%Z).
  { intros i s Hs. rewrite list_lookup_fmap in Hs.
    destruct (seq 0 (Z.to_nat num_slots) !! i) as [j |] eqn:Hj; [| discriminate].
    apply lookup_seq in Hj as [-> _]. injection Hs as <-. reflexivity. }
  split; [| split].
  - intros i j s1 s2 H1%Hat H2%Hat. lia.
  - intros s Hs%Hat. lia.
  - intros i s Hs%Hat. lia.
Qed.

Lemma find_calendar_slots_daily_witness :
  ∃ (slots : list Slot) (s : Slot),
    find_calendar_slots (sample_config false) 3 30 1 sample_world
      = (Some slots, tick sample_world) ∧
    slots !! 2%nat = Some s ∧
    (clock sample_world (utc_calls sample_world) + (Z.of_nat 2 + 1) * 86400000000
     < slot_start s)%Z.
Proof.
  eexists _, _.
  assert (Hrun : find_calendar_slots (sample_config false) 3 30 1 sample_world
                 = (Some _, tick sample_world)) by reflexivity.
  assert (Hslot : [slot_at 100 30 "Europe/London" 0; slot_at 100 30 "Europe/London" 1;
                   slot_at 100 30 "Europe/London" 2] !! 2%nat
                  = Some (slot_at 100 30 "Europe/London" 2)) by reflexivity.
  split; [exact Hrun |]. split; [exact Hslot |].
  exact (proj2 (proj2 (find_calendar_slots_daily _ _ _ _ _ _ _ Hrun)) _ _ Hslot).
Defined.

(** [find_calendar_slots] raises instead of returning a shorter list: when
    slots are asked for and the last of them would start after
    [datetime.max], the [OverflowError] leaves the function and no slot is
    returned. *)
Theorem find_calendar_slots_overflow (tenant_config : TenantConfig)
    (num_slots duration_minutes days_ahead : Z) (w : World) :
  (0 < num_slots)%Z →
  (datetime_max < clock w (utc_calls w) + (num_slots * 24 + 10) * 3600000000)%Z →
  find_calendar_slots tenant_config num_slots duration_minutes days_ahead w
    = (None, tick w).
Proof.
  intros Hn Hmax. unfold find_calendar_slots.
  rewrite slots_loop_overflow; [reflexivity | lia |].
  rewrite Z2Nat.id by lia. lia.
Qed.

Lemma find_calendar_slots_overflow_witness :
  find_calendar_slots (sample_config false) 4000000 30 7 sample_world
    = (None, tick sample_world).
Proof.
  apply (find_calendar_slots_overflow (sample_config false) 4000000 30 7 sample_world);
    vm_compute; reflexivity.
Defined.

(** ** Running a stage again *)

(** The guardrail does not consult what an earlier run left: on a
    classified payload the outcome is the same whatever [qa_decision] and
    [qa_risk_score] held before, and running the stage a second time changes
    nothing but [updated_at]. *)
Theorem guardrail_overwrites (payload : WorkflowPayload) (c : Classification)
    (w : World) :
  classification payload = Some c →
  (∀ (d0 : option QADecision) (r0 : option float),
     qa_guardrail_agent (set_qa_risk_score r0 (set_qa_decision d0 payload)) w
       = qa_guardrail_agent payload w) ∧
  ∃ (payload1 payload2 : WorkflowPayload) (log : Log),
    qa_guardrail_agent payload w = (Returns (payload1, log), tick w) ∧
    qa_guardrail_agent payload1 (tick w) = (Returns (payload2, log), tick (tick w)) ∧
    payload2 = set_updated_at (clock w (S (utc_calls w))) payload1.
Proof.
  intros Hc. split.
  - intros d0 r0. unfold qa_guardrail_agent.
    rewrite (qa_guardrail_try_classified _ _ _ c) by exact Hc.
    rewrite (qa_guardrail_try_classified _ _ _ _ Hc). reflexivity.
  - unfold qa_guardrail_agent.
    rewrite (qa_guardrail_try_classified _ _ _ _ Hc), !bump_and_return_run.
    cbn [fst snd except_failed].
    do 3 eexists. split; [reflexivity |].
    rewrite (qa_guardrail_try_classified _ _ _ c) by exact Hc.
    rewrite bump_and_return_run. cbn [fst snd except_failed].
    split; reflexivity.
Qed.

Lemma guardrail_overwrites_witness :
  qa_guardrail_agent
    (set_qa_risk_score (Some 0.9%float)
       (set_qa_decision (Some AUTO_SEND)
          (sample_payload false (Some (classified SCHEDULING 0.9))))) sample_world
  = qa_guardrail_agent (sample_payload false (Some (classified SCHEDULING 0.9)))
      sample_world.
Proof.
  exact (proj1 (guardrail_overwrites
                  (sample_payload false (Some (classified SCHEDULING 0.9)))
                  (classified SCHEDULING 0.9) sample_world eq_refl)
           (Some AUTO_SEND) (Some 0.9%float)).
Defined.

(** A run of a worker on a payload of its intent. *)
Lemma worker_run (s : Stage) (i : Intent) :
  worker_intent s = Some i →
  ∃ action : Action,
    action_type action = "reply" ∧
    ∀ (payload : WorkflowPayload) (c : Classification) (w : World),
      classification payload = Some c →
      intent c = i →
      ∃ log : Log,
        run_stage s payload w =
          (Returns (set_updated_at (clock w (utc_calls w))
                      (set_action_plan (action_plan payload ++ [action]) payload),
                    log), tick w).
Proof.
  intros Hs.
  destruct s; try discriminate; injection Hs as <-; cbn [run_stage].
  - exists (reply_action
              "Thank you for reaching out. Here are some available times...").
    split; [reflexivity |]. intros payload c w Hc Hi.
    unfold admin_scheduling_agent.
    rewrite Hc, bool_decide_eq_false_2, bump_and_return_run
      by (intros Hne; by apply Hne).
    eexists. reflexivity.
  - exists (reply_action "Based on your question, here is the information...").
    split; [reflexivity |]. intros payload c w Hc Hi.
    unfold support_faq_agent.
    rewrite Hc, bool_decide_eq_false_2, bump_and_return_run
      by (intros Hne; by apply Hne).
    eexists. reflexivity.
Qed.

(** A worker does not look at the plan it extends: run twice on a payload
    of its intent, it appends its reply twice. *)
Theorem worker_appends_each_time (s : Stage) (payload : WorkflowPayload)
    (c : Classification) (w : World) :
  classification payload = Some c →
  worker_intent s = Some (intent c) →
  ∃ (payload1 payload2 : WorkflowPayload) (log1 log2 : Log) (action : Action),
    run_stage s payload w = (Returns (payload1, log1), tick w) ∧
    run_stage s payload1 (tick w) = (Returns (payload2, log2), tick (tick w)) ∧
    action_type action = "reply" ∧
    action_plan payload2 = action_plan payload ++ [action; action].
Proof.
  intros Hc Hs.
  destruct (worker_run s (intent c) Hs) as (action & Hreply & Hrun).
  destruct (Hrun payload c w Hc eq_refl) as (log1 & Hrun1).
  set (payload1 := set_updated_at _ _) in Hrun1.
  destruct (Hrun payload1 c (tick w) Hc eq_refl) as (log2 & Hrun2).
  eexists payload1, _, log1, log2, action.
  split; [exact Hrun1 |]. split; [exact Hrun2 |]. split; [exact Hreply |].
  cbn [action_plan set_updated_at set_action_plan payload1].
  by rewrite <- app_assoc.
Qed.

Lemma worker_appends_each_time_witness :
  ∃ (payload1 payload2 : WorkflowPayload) (log1 log2 : Log),
    run_stage SupportFaq support_payload sample_world
      = (Returns (payload1, log1), tick sample_world) ∧
    run_stage SupportFaq payload1 (tick sample_world)
      = (Returns (payload2, log2), tick (tick sample_world)) ∧
    length (action_plan payload2) = 2%nat.
Proof.
  destruct (worker_appends_each_time SupportFaq support_payload
              (classified SUPPORT 0.9) sample_world eq_refl eq_refl)
    as (payload1 & payload2 & log1 & log2 & action & Hrun1 & Hrun2 & _ & Hplan).
  exists payload1, payload2, log1, log2.
  split; [exact Hrun1 |]. split; [exact Hrun2 |]. by rewrite Hplan.
Defined.

(** ** Not-a-number scores *)

Lemma ltb_nan_l (x : float) : (nan <? x)%float = false.
Proof. rewrite ltb_spec. reflexivity. Qed.

Lemma ltb_nan_r (x : float) : (x <? nan)%float = false.
Proof.
  rewrite ltb_spec. replace (Prim2SF nan) with S754_nan by reflexivity.
  unfold SFltb, SFcompare. by destruct (Prim2SF x) as [| [] | | [] ? ?].
Qed.

(** Comparisons with a NaN are false, so a NaN is never "below the
    threshold": a classification whose confidence is NaN is neither
    escalated nor sent by the guardrail but drafted, and under a tenant
    whose threshold is NaN the guardrail never escalates. *)
Theorem guardrail_on_nan (payload : WorkflowPayload) (c : Classification)
    (w : World) :
  classification payload = Some c →
  confidence c = nan ∨ escalation_threshold (tenant_config payload) = nan →
  ∃ (payload' : WorkflowPayload) (log : Log),
    qa_guardrail_agent payload w = (Returns (payload', log), tick w) ∧
    qa_decision payload' ≠ Some ESCALATE ∧
    (confidence c = nan → qa_decision payload' = Some DRAFT_ONLY).
Proof.
  intros Hc Hnan. unfold qa_guardrail_agent.
  rewrite (qa_guardrail_try_classified _ _ _ _ Hc), bump_and_return_run.
  do 2 eexists. split; [reflexivity |].
  cbn [fst snd except_failed qa_decision set_updated_at set_qa_decision].
  unfold spec_decision.
  replace (0.7 <? placeholder_risk_score)%float with false by reflexivity.
  rewrite orb_false_r. split.
  - destruct Hnan as [-> | ->]; rewrite ?ltb_nan_l, ?ltb_nan_r;
      by repeat case_match.
  - intros ->. by rewrite ltb_nan_l, ltb_nan_r, andb_false_r.
Qed.

Lemma guardrail_on_nan_witness :
  ∃ (payload' : WorkflowPayload) (log : Log),
    qa_guardrail_agent (sample_payload true (Some (classified SCHEDULING nan)))
      sample_world = (Returns (payload', log), tick sample_world) ∧
    qa_decision payload' = Some DRAFT_ONLY.
Proof.
  destruct (guardrail_on_nan (sample_payload true (Some (classified SCHEDULING nan)))
              (classified SCHEDULING nan) sample_world eq_refl (or_introl eq_refl))
    as (payload' & log & Hrun & _ & Hdraft).
  exists payload', log. split; [exact Hrun | exact (Hdraft eq_refl)].
Defined.

(** ** Which requests are rejected *)


(** ** What a completed run logs *)



